(** * pysftp 0.2.4: a shallow embedding of [pysftp.py] and its specification

    The development follows the layout of the module:
    - the Python built-ins the module leans on ([str], [oct], [int],
      [stat.S_IMODE], [os.path.split]), for the Python 2 interpreter the
      module was written for;
    - exceptions, and a state-and-exception monad over the [Connection]
      object, the collaborator (paramiko, [os], [tempfile]) and the trace of
      collaborator calls;
    - [Connection.__init__], [_sftp_connect], the remote operations,
      [execute] and [close];
    - the path algebra, the existence helpers and [makedirs], which the tests
      of the repository call but which [pysftp.py] 0.2.4 does not define;
    - the theorems. *)

From Stdlib Require Import ZArith List String Ascii Bool Lia.
From stdpp Require Import base option gmap strings.
Import ListNotations.

Local Open Scope Z_scope.

(** ** Python built-ins *)

Module Py.

(** Exceptions the module raises, catches or lets through.  [SSHException]
    has the two subclasses paramiko derives from it, so that
    [except paramiko.SSHException] catches all three. *)
Inductive exn : Type :=
| KeyError (key : string)
| AttributeError (attr : string)
| ValueError
| TypeError
| IOError (errno : Z)
| OSError (errno : Z)
| socket_gaierror
| SSHException
| AuthenticationException
| PasswordRequiredException
| ConnectionException (host : string) (port : Z)
| CredentialException (message : string).

Definition is_SSHException (e : exn) : bool :=
  match e with
  | SSHException | AuthenticationException | PasswordRequiredException => true
  | _ => false
  end.

Inductive result (A : Type) : Type :=
| Ok (a : A)
| Raise (e : exn).
Arguments Ok {A} a.
Arguments Raise {A} e.

(** Most-significant-first digits of a non-negative integer in base [b].
    [fuel] bounds the number of digits. *)
Fixpoint digits_rev (b : Z) (fuel : nat) (n : Z) : list Z :=
  match fuel with
  | O => []
  | S f => if n <? b then [n] else (n mod b) :: digits_rev b f (n / b)
  end.

Definition digits (b n : Z) : list Z :=
  rev (digits_rev b (S (Z.to_nat (Z.log2 n))) n).


Definition char_of_digit (d : Z) : ascii :=
  ascii_of_nat (48 + Z.to_nat d).

Definition digit_of_char (c : ascii) : option Z :=
  let n := Z.of_nat (nat_of_ascii c) in
  if (48 <=? n) && (n <=? 57) then Some (n - 48) else None.

Definition chars_of_digits (ds : list Z) : list ascii := map char_of_digit ds.

(** [str(n)] for an int: decimal digits, a minus sign when negative. *)
Definition str_int (n : Z) : list ascii :=
  if n <? 0 then "-"%char :: chars_of_digits (digits 10 (- n))
  else chars_of_digits (digits 10 n).


Definition is_space (c : ascii) : bool :=
  let n := nat_of_ascii c in
  ((9 <=? n) && (n <=? 13))%nat || (n =? 32)%nat.

Fixpoint lstrip (l : list ascii) : list ascii :=
  match l with
  | c :: r => if is_space c then lstrip r else l
  | [] => []
  end.

Definition strip (l : list ascii) : list ascii :=
  rev (lstrip (rev (lstrip l))).

(** Value of a non-empty run of digits all below [b]; [None] otherwise. *)
Fixpoint parse_digits (b : Z) (acc : Z) (l : list ascii) : option Z :=
  match l with
  | [] => Some acc
  | c :: r =>
      match digit_of_char c with
      | Some d => if d <? b then parse_digits b (acc * b + d) r else None
      | None => None
      end
  end.

Definition parse_unsigned (b : Z) (l : list ascii) : option Z :=
  match l with
  | [] => None
  | _ => parse_digits b 0 l
  end.

(** The [0o] / [0O] prefix [int(s, 8)] accepts. *)
Definition strip_prefix8 (l : list ascii) : list ascii :=
  match l with
  | "0"%char :: "o"%char :: r => r
  | "0"%char :: "O"%char :: r => r
  | _ => l
  end.

(** [int(s, base)] for base 8 and base 10: surrounding white space, an
    optional sign, for base 8 an optional [0o] prefix, then digits. *)
Definition int (l : list ascii) (base : Z) : result Z :=
  let body sgn r :=
    let r := if base =? 8 then strip_prefix8 r else r in
    match parse_unsigned base r with
    | Some v => Ok (sgn * v)
    | None => Raise ValueError
    end in
  match strip l with
  | "-"%char :: r => body (-1) r
  | "+"%char :: r => body 1 r
  | r => body 1 r
  end.

Definition S_IFMT (mode : Z) : Z := Z.land mode 61440.       (* 0o170000 *)
Definition S_ISDIR (mode : Z) : bool := S_IFMT mode =? 16384. (* 0o040000 *)
Definition S_ISREG (mode : Z) : bool := S_IFMT mode =? 32768. (* 0o100000 *)

(** [str.rfind(c)]: index of the last occurrence. *)
Fixpoint rfind (c : ascii) (p : list ascii) : option nat :=
  match p with
  | [] => None
  | a :: r =>
      match rfind c r with
      | Some i => Some (S i)
      | None => if Ascii.eqb a c then Some O else None
      end
  end.

Fixpoint rstrip_char (c : ascii) (p : list ascii) : list ascii :=
  match p with
  | [] => []
  | a :: r =>
      match rstrip_char c r with
      | [] => if Ascii.eqb a c then [] else [a]
      | r' => a :: r'
      end
  end.

(** [posixpath.split]:
    [i = p.rfind('/') + 1; head, tail = p[:i], p[i:]], and the trailing
    slashes of [head] dropped unless [head] is all slashes. *)
Definition os_path_split (p : list ascii) : list ascii * list ascii :=
  let i := match rfind "/"%char p with Some k => S k | None => O end in
  let head := firstn i p in
  let tail := skipn i p in
  let head :=
    if negb (forallb (Ascii.eqb "/"%char) head) then rstrip_char "/"%char head
    else head in
  (head, tail).

End Py.

(** ** Values, collaborator calls and the monad *)

Import Py.

(** Python values the module handles.  [VObj] is an object of the
    collaborator (a transport, an SFTP client, a channel, a file object, a
    key loaded from a file); [VAttrs] is an [SFTPAttributes] record, of
    which the [st_mode] field is kept; [VAgentKey] is a
    [paramiko.AgentKey]. *)
#[warnings="-register-all"]
Inductive Value : Type :=
| VNone
| VBool (b : bool)
| VInt (z : Z)
| VStr (s : string)
| VSeq (l : list Value)
| VObj (id : nat)
| VAttrs (st_mode : Z)
| VAgentKey (id : nat).

(** Truth value of [if v] / [not v]. *)
Definition truthy (v : Value) : bool :=
  match v with
  | VNone => false
  | VBool b => b
  | VInt z => negb (z =? 0)
  | VStr s => negb (String.eqb s "")
  | VSeq l => match l with [] => false | _ => true end
  | VObj _ | VAttrs _ | VAgentKey _ => true
  end.

Definition is_None (v : Value) : bool :=
  match v with VNone => true | _ => false end.

Definition isinstance_AgentKey (v : Value) : bool :=
  match v with VAgentKey _ => true | _ => false end.

(** [os.path.split] on strings. *)
Definition split (p : string) : string * string :=
  let (h, t) := os_path_split (list_ascii_of_string p) in
  (string_of_list_ascii h, string_of_list_ascii t).

(** Every call the module makes into paramiko, [os] and [tempfile].  A
    method call has its receiver as first argument. *)
Inductive Call : Type :=
| os_environ (key : string)
| tempfile_mkstemp (suffix prefix : string)
| paramiko_util_log_to_file (filename : Value)
| os_path_expanduser (path : Value)
| os_path_exists (path : Value)
| paramiko_Transport (host : string) (port : Z)
| Transport_connect (t username password pkey : Value)
| RSAKey_from_private_key_file (filename password : Value)
| DSSKey_from_private_key_file (filename password : Value)
| SFTPClient_from_transport (t : Value)
| Transport_open_session (t : Value)
| Transport_close (t : Value)
| Channel_exec_command (chan command : Value)
| Channel_makefile (chan : Value) (mode : string) (bufsize : Z)
| Channel_makefile_stderr (chan : Value) (mode : string) (bufsize : Z)
| File_readlines (f : Value)
| SFTPClient_get (sftp : Value) (remotepath : string) (localpath callback : Value)
| SFTPClient_getfo (sftp : Value) (remotepath : string) (flo callback : Value)
| SFTPClient_put (sftp : Value) (localpath : string) (remotepath callback confirm : Value)
| SFTPClient_chdir (sftp : Value) (remotepath : string)
| SFTPClient_getcwd (sftp : Value)
| SFTPClient_listdir (sftp : Value) (remotepath : string)
| SFTPClient_mkdir (sftp : Value) (remotepath : string) (mode : Z)
| SFTPClient_remove (sftp : Value) (remotefile : string)
| SFTPClient_rmdir (sftp : Value) (remotepath : string)
| SFTPClient_rename (sftp : Value) (remote_src remote_dest : string)
| SFTPClient_stat (sftp : Value) (remotepath : string)
| SFTPClient_lstat (sftp : Value) (remotepath : string)
| SFTPClient_open (sftp : Value) (remote_file : string) (mode : Value) (bufsize : Value)
| SFTPClient_close (sftp : Value).

(** The receiver of a method call and the method's name; [None] for module
    level functions. *)
Definition receiver (c : Call) : option (Value * string) :=
  match c with
  | os_environ _ | tempfile_mkstemp _ _ | paramiko_util_log_to_file _
  | os_path_expanduser _ | os_path_exists _ | paramiko_Transport _ _
  | RSAKey_from_private_key_file _ _ | DSSKey_from_private_key_file _ _
  | SFTPClient_from_transport _ => None
  | Transport_connect t _ _ _ => Some (t, "connect")
  | Transport_open_session t => Some (t, "open_session")
  | Transport_close t => Some (t, "close")
  | Channel_exec_command ch _ => Some (ch, "exec_command")
  | Channel_makefile ch _ _ => Some (ch, "makefile")
  | Channel_makefile_stderr ch _ _ => Some (ch, "makefile_stderr")
  | File_readlines f => Some (f, "readlines")
  | SFTPClient_get s _ _ _ => Some (s, "get")
  | SFTPClient_getfo s _ _ _ => Some (s, "getfo")
  | SFTPClient_put s _ _ _ _ => Some (s, "put")
  | SFTPClient_chdir s _ => Some (s, "chdir")
  | SFTPClient_getcwd s => Some (s, "getcwd")
  | SFTPClient_listdir s _ => Some (s, "listdir")
  | SFTPClient_mkdir s _ _ => Some (s, "mkdir")
  | SFTPClient_remove s _ => Some (s, "remove")
  | SFTPClient_rmdir s _ => Some (s, "rmdir")
  | SFTPClient_rename s _ _ => Some (s, "rename")
  | SFTPClient_stat s _ => Some (s, "stat")
  | SFTPClient_lstat s _ => Some (s, "lstat")
  | SFTPClient_open s _ _ _ => Some (s, "open")
  | SFTPClient_close s => Some (s, "close")
  end.

Definition is_object (v : Value) : bool :=
  match v with VObj _ => true | _ => false end.

(** The collaborator: whatever answers the calls.  It has a state of its own
    (the network, the remote file system, the local environment), and every
    call returns a value or raises. *)
Class Collaborator (W : Type) : Type :=
  respond : Call -> W -> W * result Value.

(** The instance attributes of a [Connection]; [None] is an attribute that
    has not been assigned yet. *)
Record Connection : Type := mkConnection {
  _sftp_live : option bool;
  _sftp : option Value;
  _tranport_live : option bool;
  _transport : option Value
}.

(** The object [object.__new__] hands to [__init__]: no attribute set. *)
Definition blank : Connection := mkConnection None None None None.

Definition Event : Type := Call * result Value.

Record St (W : Type) : Type := mkSt {
  self : Connection;
  world : W;
  trace : list Event
}.
Arguments mkSt {W} _ _ _.
Arguments self {W} _.
Arguments world {W} _.
Arguments trace {W} _.

Definition M (W A : Type) : Type := St W -> St W * result A.

Definition ret {W A} (a : A) : M W A := fun st => (st, Ok a).

Definition raise {W A} (e : exn) : M W A := fun st => (st, Raise e).

Definition bind {W A B} (m : M W A) (k : A -> M W B) : M W B :=
  fun st =>
    match m st with
    | (st', Ok a) => k a st'
    | (st', Raise e) => (st', Raise e)
    end.

(** [try: m except <classes>: h]; state changes made before the exception
    stay. *)
Definition try_except {W A} (m : M W A) (catches : exn -> bool) (h : M W A) : M W A :=
  fun st =>
    match m st with
    | (st', Ok a) => (st', Ok a)
    | (st', Raise e) => if catches e then h st' else (st', Raise e)
    end.

Declare Scope py_scope.
Delimit Scope py_scope with py.
Notation "x <- m ;; k" := (bind m (fun x => k))
  (at level 100, m at next level, right associativity) : py_scope.
Notation "m ;; k" := (bind m (fun _ => k))
  (at level 100, right associativity) : py_scope.
Local Open Scope py_scope.

(** ** The Connection class *)

Section Connection.

Context {W : Type} `{Collaborator W}.

(** A call into the collaborator, recorded in the trace.  A method call on
    a value that is not a collaborator object is an [AttributeError] raised
    by the interpreter, and no call is made. *)
Definition call (c : Call) : M W Value :=
  fun st =>
    match receiver c with
    | Some (v, meth) =>
        if is_object v then
          let (w', r) := respond c (world st) in
          (mkSt (self st) w' (trace st ++ [(c, r)]), r)
        else (st, Raise (AttributeError meth))
    | None =>
        let (w', r) := respond c (world st) in
        (mkSt (self st) w' (trace st ++ [(c, r)]), r)
    end.

(** Attribute reads; an attribute never assigned raises [AttributeError]. *)
Definition getattr {A} (name : string) (field : Connection -> option A) : M W A :=
  fun st =>
    match field (self st) with
    | Some a => (st, Ok a)
    | None => (st, Raise (AttributeError name))
    end.

Definition setattr (f : Connection -> Connection) : M W unit :=
  fun st => (mkSt (f (self st)) (world st) (trace st), Ok tt).

Definition set_sftp_live (b : bool) : M W unit :=
  setattr (fun c => mkConnection (Some b) (_sftp c) (_tranport_live c) (_transport c)).
Definition set_sftp (v : Value) : M W unit :=
  setattr (fun c => mkConnection (_sftp_live c) (Some v) (_tranport_live c) (_transport c)).
Definition set_tranport_live (b : bool) : M W unit :=
  setattr (fun c => mkConnection (_sftp_live c) (_sftp c) (Some b) (_transport c)).
Definition set_transport (v : Value) : M W unit :=
  setattr (fun c => mkConnection (_sftp_live c) (_sftp c) (_tranport_live c) (Some v)).

(** [v[i]] on a sequence. *)
Definition getitem (v : Value) (i : nat) : M W Value :=
  match v with
  | VSeq l => match nth_error l i with Some x => ret x | None => raise TypeError end
  | _ => raise TypeError
  end.

Definition catches_connect (e : exn) : bool :=
  match e with
  | AttributeError _ | socket_gaierror => true
  | _ => false
  end.

(** [os.path.exists(os.path.expanduser(p))]. *)
Definition default_key_exists (p : string) : M W bool :=
  q <- call (os_path_expanduser (VStr p)) ;;
  e <- call (os_path_exists q) ;;
  ret (truthy e).

(** [Connection.__init__], lines 80-98: the two session attributes, the
    user name, the log file, the transport.  Returns the user name. *)
Definition open_transport (host : string) (username : Value) (port : Z)
    (log : Value) : M W Value :=
  set_sftp_live false ;;
  set_sftp VNone ;;
  username <- (if negb (truthy username) then call (os_environ "LOGNAME")
               else ret username) ;;
  (if truthy log then
     r <- call (tempfile_mkstemp ".txt" "ssh-") ;;
     templog <- getitem r 1 ;;
     call (paramiko_util_log_to_file templog) ;;
     ret tt
   else ret tt) ;;
  (* Begin the SSH transport. *)
  set_tranport_live false ;;
  try_except
    (t <- call (paramiko_Transport host port) ;;
     set_transport t ;;
     set_tranport_live true)
    catches_connect
    (raise (ConnectionException host port)) ;;
  ret username.

(** Lines 117-124: the key file is read as an RSA key and, when that raises
    an [SSHException], as a DSS key. *)
Definition load_key (private_key private_key_pass : Value) : M W Value :=
  private_key_file <- call (os_path_expanduser private_key) ;;
  try_except
    (call (RSAKey_from_private_key_file private_key_file private_key_pass))
    is_SSHException
    (call (DSSKey_from_private_key_file private_key_file private_key_pass)).

(** [Connection.__init__], lines 100-128: authenticate the transport. *)
Definition authenticate (username private_key password private_key_pass : Value)
    : M W unit :=
  (* prefer password if given *)
  if negb (is_None password) then
    t <- getattr "_transport" _transport ;;
    call (Transport_connect t username password VNone) ;;
    ret tt
  else
    private_key <-
      (if negb (truthy private_key) then
         (* Try to use default key. *)
         rsa <- default_key_exists "~/.ssh/id_rsa" ;;
         if rsa then ret (VStr "~/.ssh/id_rsa")
         else
           dsa <- default_key_exists "~/.ssh/id_dsa" ;;
           if dsa then ret (VStr "~/.ssh/id_dsa")
           else raise (CredentialException
                         "You have not specified a password or key.")
       else ret private_key) ;;
    prv_key <-
      (if negb (isinstance_AgentKey private_key) then
         load_key private_key private_key_pass
       else ret private_key) ;;
    t <- getattr "_transport" _transport ;;
    call (Transport_connect t username VNone prv_key) ;;
    ret tt.

(** [Connection.__init__] (lines 71-128). *)
Definition __init__ (host : string) (username private_key password : Value)
    (port : Z) (private_key_pass log : Value) : M W unit :=
  username <- open_transport host username port log ;;
  authenticate username private_key password private_key_pass.

(** [_sftp_connect] (lines 130-134). *)
Definition _sftp_connect : M W unit :=
  live <- getattr "_sftp_live" _sftp_live ;;
  if negb live then
    t <- getattr "_transport" _transport ;;
    s <- call (SFTPClient_from_transport t) ;;
    set_sftp s ;;
    set_sftp_live true
  else ret tt.

(** [self._sftp.<method>(...)]: the attribute is read, then the call made. *)
Definition sftp_call (c : Value -> Call) : M W Value :=
  s <- getattr "_sftp" _sftp ;;
  call (c s).

(** [get] (lines 136-154). *)
Definition get (remotepath : string) (localpath callback : Value) : M W Value :=
  let localpath :=
    if negb (truthy localpath) then VStr (snd (split remotepath)) else localpath in
  _sftp_connect ;;
  sftp_call (fun s => SFTPClient_get s remotepath localpath callback) ;;
  ret VNone.

(** [getfo] (lines 156-172). *)
Definition getfo (remotepath : string) (flo callback : Value) : M W Value :=
  _sftp_connect ;;
  sftp_call (fun s => SFTPClient_getfo s remotepath flo callback).

(** [put] (lines 174-195). *)
Definition put (localpath : string) (remotepath callback confirm : Value) : M W Value :=
  let remotepath :=
    if negb (truthy remotepath) then VStr (snd (split localpath)) else remotepath in
  _sftp_connect ;;
  sftp_call (fun s => SFTPClient_put s localpath remotepath callback confirm).

(** [execute] (lines 197-214). *)
Definition execute (command : Value) : M W Value :=
  t <- getattr "_transport" _transport ;;
  channel <- call (Transport_open_session t) ;;
  call (Channel_exec_command channel command) ;;
  out <- call (Channel_makefile channel "rb" (-1)) ;;
  output <- call (File_readlines out) ;;
  if truthy output then ret output
  else
    err <- call (Channel_makefile_stderr channel "rb" (-1)) ;;
    call (File_readlines err).

(** [chdir], [getcwd], [listdir] (lines 216-248). *)
Definition chdir (remotepath : string) : M W Value :=
  _sftp_connect ;;
  sftp_call (fun s => SFTPClient_chdir s remotepath) ;;
  ret VNone.

Definition getcwd : M W Value :=
  _sftp_connect ;;
  sftp_call SFTPClient_getcwd.

Definition listdir (remotepath : string) : M W Value :=
  _sftp_connect ;;
  sftp_call (fun s => SFTPClient_listdir s remotepath).

(** The [mode] argument of [mkdir]: the int the docstring asks for, or a
    string, which [str] leaves as it is. *)
Inductive Mode : Type :=
| ModeInt (z : Z)
| ModeStr (s : string).

Definition str (m : Mode) : list ascii :=
  match m with
  | ModeInt z => str_int z
  | ModeStr s => list_ascii_of_string s
  end.

(** [mkdir] (lines 250-262): [int(str(mode), 8)] is evaluated after the
    session is ensured and before the call is made. *)
Definition mkdir (remotepath : string) (mode : Mode) : M W Value :=
  _sftp_connect ;;
  s <- getattr "_sftp" _sftp ;;
  match int (str mode) 8 with
  | Ok m => call (SFTPClient_mkdir s remotepath m) ;; ret VNone
  | Raise e => raise e
  end.

(** [remove], [rmdir], [rename], [stat], [lstat] (lines 264-328). *)
Definition remove (remotefile : string) : M W Value :=
  _sftp_connect ;;
  sftp_call (fun s => SFTPClient_remove s remotefile) ;;
  ret VNone.

Definition rmdir (remotepath : string) : M W Value :=
  _sftp_connect ;;
  sftp_call (fun s => SFTPClient_rmdir s remotepath) ;;
  ret VNone.

Definition rename (remote_src remote_dest : string) : M W Value :=
  _sftp_connect ;;
  sftp_call (fun s => SFTPClient_rename s remote_src remote_dest) ;;
  ret VNone.

Definition stat (remotepath : string) : M W Value :=
  _sftp_connect ;;
  sftp_call (fun s => SFTPClient_stat s remotepath).

Definition lstat (remotepath : string) : M W Value :=
  _sftp_connect ;;
  sftp_call (fun s => SFTPClient_lstat s remotepath).

(** [close] (lines 330-339). *)
Definition close : M W Value :=
  (* Close SFTP Connection. *)
  live <- getattr "_sftp_live" _sftp_live ;;
  (if live then
     sftp_call SFTPClient_close ;;
     set_sftp_live false
   else ret tt) ;;
  (* Close the SSH Transport. *)
  live <- getattr "_tranport_live" _tranport_live ;;
  (if live then
     t <- getattr "_transport" _transport ;;
     call (Transport_close t) ;;
     set_tranport_live false
   else ret tt) ;;
  ret VNone.

(** [open] (lines 341-361). *)
Definition open (remote_file : string) (mode bufsize : Value) : M W Value :=
  _sftp_connect ;;
  sftp_call (fun s => SFTPClient_open s remote_file mode bufsize).

(** [__del__], [__enter__], [__exit__] (lines 364-372).  [__enter__]
    returns the object itself and touches nothing. *)
Definition __del__ : M W Value := close.

Definition __enter__ : M W Value := ret VNone.

Definition __exit__ : M W Value := close.

(** The public operations of a constructed [Connection], with their
    arguments, and [_sftp_connect]. *)
Inductive Op : Type :=
| op_sftp_connect
| op_get (remotepath : string) (localpath callback : Value)
| op_getfo (remotepath : string) (flo callback : Value)
| op_put (localpath : string) (remotepath callback confirm : Value)
| op_execute (command : Value)
| op_chdir (remotepath : string)
| op_getcwd
| op_listdir (remotepath : string)
| op_mkdir (remotepath : string) (mode : Mode)
| op_remove (remotefile : string)
| op_rmdir (remotepath : string)
| op_rename (remote_src remote_dest : string)
| op_stat (remotepath : string)
| op_lstat (remotepath : string)
| op_close
| op_open (remote_file : string) (mode bufsize : Value)
| op_del
| op_enter
| op_exit.

Definition do_op (o : Op) : M W Value :=
  match o with
  | op_sftp_connect => _sftp_connect ;; ret VNone
  | op_get r l cb => get r l cb
  | op_getfo r f cb => getfo r f cb
  | op_put l r cb cf => put l r cb cf
  | op_execute c => execute c
  | op_chdir r => chdir r
  | op_getcwd => getcwd
  | op_listdir r => listdir r
  | op_mkdir r m => mkdir r m
  | op_remove r => remove r
  | op_rmdir r => rmdir r
  | op_rename a b => rename a b
  | op_stat r => stat r
  | op_lstat r => lstat r
  | op_close => close
  | op_open r m b => open r m b
  | op_del => __del__
  | op_enter => __enter__
  | op_exit => __exit__
  end.

(** A caller running operations one after the other, going on after an
    exception. *)
Definition run_ops (ops : list Op) (st : St W) : St W :=
  fold_left (fun st o => fst (do_op o st)) ops st.

End Connection.


(** ** Path algebra

    The tests call [pysftp.path_retreat] and [pysftp.path_advance];
    [pysftp.py] 0.2.4 does not define them. *)

Module Path.

(** Pieces of a path between its [/] delimiters, [cur] being the piece
    under way, in reverse. *)
Fixpoint pieces (p : list ascii) (cur : list ascii) : list string :=
  match p with
  | [] => [string_of_list_ascii (rev cur)]
  | c :: r =>
      if Ascii.eqb c "/" then string_of_list_ascii (rev cur) :: pieces r []
      else pieces r (c :: cur)
  end.

(** Modelled from the spec: the segments of a path, which [pysftp.py] does
    not define: "an opaque ordered sequence of segments separated by a [/]
    delimiter", with no segment of zero length. *)
Definition segments (p : string) : list string :=
  List.filter (fun s => negb (String.eqb s "")) (pieces (list_ascii_of_string p) []).

(** Modelled from the spec: "may be absolute (leading delimiter) or
    relative". *)
Definition absolute (p : string) : bool :=
  match p with
  | String c _ => Ascii.eqb c "/"
  | EmptyString => false
  end.

(** Modelled from the spec: a prefix written back as a path; "a leading
    delimiter [is] part of every yielded prefix for absolute paths". *)
Definition render (abs : bool) (segs : list string) : string :=
  String.append (if abs then "/" else "") (String.concat "/" segs).


(** Extending by one segment at a time; [done] is the prefix reached. *)
Fixpoint advance (abs : bool) (done todo : list string) : list string :=
  match todo with
  | [] => []
  | s :: rest => render abs (done ++ [s]) :: advance abs (done ++ [s]) rest
  end.


(** Modelled from the spec: the prefix-advance producer, the [path_advance]
    of the tests, which [pysftp.py] does not define: "yields the shortest
    non-empty prefix first, extending one segment at a time up to and
    including the full path.  Order: shortest to longest." *)
Definition path_advance (thepath : string) : list string :=
  advance (absolute thepath) [] (segments thepath).

(** A path written with single delimiters and no trailing one. *)
Definition normalize (p : string) : string :=
  render (absolute p) (segments p).

End Path.

(** ** Existence helpers and makedirs

    The tests call [exists], [lexists], [isdir], [isfile] and [makedirs] on
    a [Connection]; [pysftp.py] 0.2.4 does not define them. *)

Section Helpers.

Context {W : Type} `{Collaborator W}.

Local Open Scope py_scope.

Definition ENOENT : Z := 2.
Definition EEXIST : Z := 17.

(** Modelled from the spec: the "I/O-not-found style error". *)
Definition is_not_found (e : exn) : bool :=
  match e with
  | IOError n => n =? ENOENT
  | _ => false
  end.

(** Modelled from the spec: the "already exists" error of [mkdir]. *)
Definition is_already_exists (e : exn) : bool :=
  match e with
  | IOError n => n =? EEXIST
  | _ => false
  end.

(** Modelled from the spec: [exists(path)], which [pysftp.py] does not
    define: "true iff [stat] succeeds (following symlinks); any
    I/O-not-found style error from [stat] is interpreted as false, not
    re-raised; any other error propagates." *)
Definition exists_ (remotepath : string) : M W Value :=
  try_except (stat remotepath ;; ret (VBool true))
    is_not_found
    (ret (VBool false)).

(** Modelled from the spec: [lexists(path)], which [pysftp.py] does not
    define: "same but uses [lstat] (does not follow symlinks)". *)
Definition lexists (remotepath : string) : M W Value :=
  try_except (lstat remotepath ;; ret (VBool true))
    is_not_found
    (ret (VBool false)).

(** The [st_mode] attribute of what [stat] returned. *)
Definition st_mode (attrs : Value) : M W Z :=
  match attrs with
  | VAttrs m => ret m
  | _ => raise (AttributeError "st_mode")
  end.

(** Modelled from the spec: [isdir(path)], which [pysftp.py] does not
    define: "[stat] the path (follows symlinks) and test the mode's
    file-type bits; any not-found error yields false." *)
Definition isdir (remotepath : string) : M W Value :=
  try_except
    (attrs <- stat remotepath ;;
     m <- st_mode attrs ;;
     ret (VBool (S_ISDIR m)))
    is_not_found
    (ret (VBool false)).

(** Modelled from the spec: [isfile(path)], which [pysftp.py] does not
    define; as [isdir], testing for a regular file. *)
Definition isfile (remotepath : string) : M W Value :=
  try_except
    (attrs <- stat remotepath ;;
     m <- st_mode attrs ;;
     ret (VBool (S_ISREG m)))
    is_not_found
    (ret (VBool false)).

(** [for rpath in prefixes: try: mkdir(rpath, mode) except <exists>: pass]. *)
Fixpoint makedirs_loop (prefixes : list string) (mode : Mode) : M W Value :=
  match prefixes with
  | [] => ret VNone
  | rpath :: rest =>
      try_except (mkdir rpath mode) is_already_exists (ret VNone) ;;
      makedirs_loop rest mode
  end.

(** Modelled from the spec: [makedirs(path)], which [pysftp.py] does not
    define: "walk [ancestors] in reverse (i.e., shortest to longest, via the
    prefix-advance order) creating each missing segment with [mkdir],
    tolerating "already exists" errors at any level". *)
Definition makedirs (remotedir : string) (mode : Mode) : M W Value :=
  makedirs_loop (Path.path_advance remotedir) mode.

End Helpers.

(** ** A collaborator to run the module against

    A small stand-in for the local machine, paramiko and the remote file
    system, used to run the definitions above on concrete inputs. *)

Module Sim.

Inductive node : Type :=
| Dir
| File
| Symlink (target : string).

(** The [st_mode] of each kind of node: [0o040755], [0o100644],
    [0o120777]. *)
Definition mode_of (n : node) : Z :=
  match n with
  | Dir => 16877
  | File => 33188
  | Symlink _ => 41471
  end.

Record env : Type := mkEnv {
  logname : option string;      (* LOGNAME in the environment *)
  local_files : list string;    (* local files, by expanded path *)
  dss_keys : list string;       (* those of them that hold a DSS key *)
  next_id : nat;                (* next collaborator object *)
  closed : list nat;            (* transports closed so far *)
  refuses_closed : bool;        (* paramiko: no session on a closed transport *)
  fs : gmap string node         (* remote tree, by normalized path *)
}.

Definition with_next (w : env) (n : nat) : env :=
  mkEnv (logname w) (local_files w) (dss_keys w) n (closed w) (refuses_closed w) (fs w).

Definition with_closed (w : env) (c : list nat) : env :=
  mkEnv (logname w) (local_files w) (dss_keys w) (next_id w) c (refuses_closed w) (fs w).

Definition with_fs (w : env) (m : gmap string node) : env :=
  mkEnv (logname w) (local_files w) (dss_keys w) (next_id w) (closed w) (refuses_closed w) m.

(** A new collaborator object. *)
Definition fresh (w : env) : env * result Value :=
  (with_next w (S (next_id w)), Ok (VObj (next_id w))).

Definition expanduser (p : string) : string :=
  match p with
  | String "~" rest => String.append "/home/user" rest
  | _ => p
  end.

Definition is_closed (w : env) (t : Value) : bool :=
  match t with
  | VObj id => existsb (Nat.eqb id) (closed w)
  | _ => false
  end.

(** The node at a path; a path without segments is the root or the
    working directory. *)
Definition node_at (m : gmap string node) (p : string) : option node :=
  match Path.segments p with
  | [] => Some Dir
  | _ => m !! Path.normalize p
  end.

Definition ELOOP : Z := 40.
Definition ENOTDIR : Z := 20.

(** [stat]: symbolic links are followed, at most [fuel] of them. *)
Fixpoint resolve (m : gmap string node) (fuel : nat) (p : string) : result node :=
  match fuel with
  | O => Raise (IOError ELOOP)
  | S f =>
      match node_at m p with
      | None => Raise (IOError ENOENT)
      | Some (Symlink t) => resolve m f t
      | Some n => Ok n
      end
  end.

Definition MAXSYMLINKS : nat := 40.

Definition fs_stat (m : gmap string node) (p : string) : result Value :=
  match resolve m MAXSYMLINKS p with
  | Ok n => Ok (VAttrs (mode_of n))
  | Raise e => Raise e
  end.

Definition fs_lstat (m : gmap string node) (p : string) : result Value :=
  match node_at m p with
  | Some n => Ok (VAttrs (mode_of n))
  | None => Raise (IOError ENOENT)
  end.

(** The directory a new entry goes into. *)
Definition parent (p : string) : string :=
  Path.render (Path.absolute p) (removelast (Path.segments p)).

(** [mkdir]: the path must be free and its parent a directory. *)
Definition fs_mkdir (m : gmap string node) (p : string)
    : gmap string node * result Value :=
  match node_at m p with
  | Some _ => (m, Raise (IOError EEXIST))
  | None =>
      match resolve m MAXSYMLINKS (parent p) with
      | Ok Dir => (<[Path.normalize p := Dir]> m, Ok VNone)
      | Ok _ => (m, Raise (IOError ENOTDIR))
      | Raise e => (m, Raise e)
      end
  end.

Definition fs_rmdir (m : gmap string node) (p : string)
    : gmap string node * result Value :=
  match m !! Path.normalize p with
  | Some Dir => (delete (Path.normalize p) m, Ok VNone)
  | Some _ => (m, Raise (IOError ENOTDIR))
  | None => (m, Raise (IOError ENOENT))
  end.

Definition fs_remove (m : gmap string node) (p : string)
    : gmap string node * result Value :=
  match m !! Path.normalize p with
  | Some Dir => (m, Raise (IOError 21))
  | Some _ => (delete (Path.normalize p) m, Ok VNone)
  | None => (m, Raise (IOError ENOENT))
  end.

Definition answer (c : Call) (w : env) : env * result Value :=
  match c with
  | os_environ key =>
      match logname w with
      | Some u => if String.eqb key "LOGNAME" then (w, Ok (VStr u))
                  else (w, Raise (KeyError key))
      | None => (w, Raise (KeyError key))
      end
  | tempfile_mkstemp suffix prefix =>
      (w, Ok (VSeq [VInt 3; VStr (String.append "/tmp/" (String.append prefix suffix))]))
  | paramiko_util_log_to_file _ => (w, Ok VNone)
  | os_path_expanduser (VStr p) => (w, Ok (VStr (expanduser p)))
  | os_path_expanduser _ => (w, Raise (AttributeError "startswith"))
  | os_path_exists (VStr p) => (w, Ok (VBool (existsb (String.eqb p) (local_files w))))
  | os_path_exists _ => (w, Raise TypeError)
  | paramiko_Transport host port =>
      if String.eqb host "" then (w, Raise socket_gaierror) else fresh w
  | Transport_connect _ _ _ _ => (w, Ok VNone)
  | RSAKey_from_private_key_file (VStr f) _ =>
      if negb (existsb (String.eqb f) (local_files w)) then (w, Raise (IOError ENOENT))
      else if existsb (String.eqb f) (dss_keys w) then (w, Raise SSHException)
      else fresh w
  | RSAKey_from_private_key_file _ _ => (w, Raise TypeError)
  | DSSKey_from_private_key_file (VStr f) _ =>
      if negb (existsb (String.eqb f) (local_files w)) then (w, Raise (IOError ENOENT))
      else if existsb (String.eqb f) (dss_keys w) then fresh w
      else (w, Raise SSHException)
  | DSSKey_from_private_key_file _ _ => (w, Raise TypeError)
  | SFTPClient_from_transport t =>
      if is_object t then
        if refuses_closed w && is_closed w t then (w, Raise SSHException)
        else fresh w
      else (w, Raise (AttributeError "open_session"))
  | Transport_open_session t =>
      if refuses_closed w && is_closed w t then (w, Raise SSHException)
      else fresh w
  | Transport_close (VObj id) => (with_closed w (id :: closed w), Ok VNone)
  | Transport_close _ => (w, Ok VNone)
  | Channel_exec_command _ _ => (w, Ok VNone)
  | Channel_makefile _ _ _ => fresh w
  | Channel_makefile_stderr _ _ _ => fresh w
  | File_readlines _ => (w, Ok (VSeq []))
  | SFTPClient_get _ _ _ _ => (w, Ok VNone)
  | SFTPClient_getfo _ _ _ _ => (w, Ok (VInt 0))
  | SFTPClient_put _ _ _ _ _ => (w, Ok (VAttrs (mode_of File)))
  | SFTPClient_chdir _ _ => (w, Ok VNone)
  | SFTPClient_getcwd _ => (w, Ok VNone)
  | SFTPClient_listdir _ _ => (w, Ok (VSeq []))
  | SFTPClient_mkdir _ p _ =>
      let (m, r) := fs_mkdir (fs w) p in (with_fs w m, r)
  | SFTPClient_remove _ p =>
      let (m, r) := fs_remove (fs w) p in (with_fs w m, r)
  | SFTPClient_rmdir _ p =>
      let (m, r) := fs_rmdir (fs w) p in (with_fs w m, r)
  | SFTPClient_rename _ _ _ => (w, Ok VNone)
  | SFTPClient_stat _ p => (w, fs_stat (fs w) p)
  | SFTPClient_lstat _ p => (w, fs_lstat (fs w) p)
  | SFTPClient_open _ _ _ _ => fresh w
  | SFTPClient_close _ => (w, Ok VNone)
  end.

#[global] Instance collaborator : Collaborator env := answer.

(** A machine with a user name, no local key file, an empty remote tree,
    and paramiko's refusal to open a session on a closed transport. *)
Definition machine : env :=
  mkEnv (Some "test") [] [] O [] true ∅.

(** The state [__init__] starts from. *)
Definition start (w : env) : St env := mkSt blank w [].

(** A connection opened with a password on [w]. *)
Definition connected (w : env) : St env :=
  fst (__init__ "localhost" (VStr "test") VNone (VStr "test1357") 22 VNone
         (VBool false) (start w)).

End Sim.

(** ** Facts about the built-ins *)

Section Digits.

Variable b : Z.
Hypothesis b_ge_2 : 2 <= b.








End Digits.
















(** ** os.path.split *)



(** ** The session and the transport *)

(** The thirteen methods that work through the SFTP session. *)
Definition remote_op (o : Op) : bool :=
  match o with
  | op_get _ _ _ | op_getfo _ _ _ | op_put _ _ _ _ | op_chdir _ | op_getcwd
  | op_listdir _ | op_mkdir _ _ | op_remove _ | op_rmdir _ | op_rename _ _
  | op_stat _ | op_lstat _ | op_open _ _ _ => true
  | _ => false
  end.

(** The primitives of the session those methods delegate to. *)
Definition session_call (c : Call) : bool :=
  match c with
  | SFTPClient_get _ _ _ _ | SFTPClient_getfo _ _ _ _ | SFTPClient_put _ _ _ _ _
  | SFTPClient_chdir _ _ | SFTPClient_getcwd _ | SFTPClient_listdir _ _
  | SFTPClient_mkdir _ _ _ | SFTPClient_remove _ _ | SFTPClient_rmdir _ _
  | SFTPClient_rename _ _ _ | SFTPClient_stat _ _ | SFTPClient_lstat _ _
  | SFTPClient_open _ _ _ _ => true
  | _ => false
  end.

Definition is_from_transport (c : Call) : bool :=
  match c with SFTPClient_from_transport _ => true | _ => false end.


(** The object a method call is made on. *)
Definition receiver_value (c : Call) : option Value :=
  match receiver c with
  | Some (v, _) => Some v
  | None => None
  end.



Definition sftp_live (c : Connection) : bool :=
  match _sftp_live c with Some true => true | _ => false end.



(** ** Reasoning about the monad *)

Section MonadFacts.

Context {W : Type} `{Collaborator W}.

Local Open Scope py_scope.

(** A computation only adds to the trace, and only calls that satisfy
    [P]. *)
Definition emits {A} (P : Call -> Prop) (m : M W A) : Prop :=
  forall st, exists new,
    trace (fst (m st)) = trace st ++ new /\ Forall (fun ev => P (fst ev)) new.

(** A computation leaves the attributes of the object alone. *)
Definition frame {A} (m : M W A) : Prop :=
  forall st, self (fst (m st)) = self st.

Lemma fst_bind {A B} (m : M W A) (k : A -> M W B) (st : St W) :
  fst (bind m k st)
  = match snd (m st) with
    | Ok a => fst (k a (fst (m st)))
    | Raise _ => fst (m st)
    end.
Proof. unfold bind. destruct (m st) as [st1 [a|e]]; reflexivity. Qed.

Lemma emits_nothing {A} (P : Call -> Prop) (m : M W A) :
  (forall st, trace (fst (m st)) = trace st) -> emits P m.
Proof.
  intros E st. exists []. rewrite E, app_nil_r. split; [reflexivity|constructor].
Qed.

Lemma emits_ret {A} (P : Call -> Prop) (a : A) : emits P (ret a).
Proof. apply emits_nothing. reflexivity. Qed.

Lemma emits_raise {A} (P : Call -> Prop) (e : exn) : emits P (@raise W A e).
Proof. apply emits_nothing. reflexivity. Qed.

Lemma emits_bind {A B} (P : Call -> Prop) (m : M W A) (k : A -> M W B) :
  emits P m -> (forall a, emits P (k a)) -> emits P (bind m k).
Proof.
  intros Hm Hk st. rewrite fst_bind. destruct (Hm st) as (n1 & E1 & F1).
  destruct (snd (m st)) as [a|e].
  - destruct (Hk a (fst (m st))) as (n2 & E2 & F2). exists (n1 ++ n2).
    rewrite E2, E1, app_assoc. split; [reflexivity|].
    apply Forall_app; split; assumption.
  - exists n1. split; assumption.
Qed.

Lemma emits_try {A} (P : Call -> Prop) (m : M W A) (c : exn -> bool) (h : M W A) :
  emits P m -> emits P h -> emits P (try_except m c h).
Proof.
  intros Hm Hh st. unfold try_except. destruct (Hm st) as (n1 & E1 & F1).
  destruct (m st) as [st1 [a|e]]; cbn [fst] in *.
  - exists n1. split; assumption.
  - destruct (c e).
    + destruct (Hh st1) as (n2 & E2 & F2). exists (n1 ++ n2).
      rewrite E2, E1, app_assoc. split; [reflexivity|].
      apply Forall_app; split; assumption.
    + exists n1. split; assumption.
Qed.

Lemma emits_call (P : Call -> Prop) (c : Call) : P c -> emits P (call c).
Proof.
  intros Hc st. unfold call.
  destruct (receiver c) as [[v meth]|]; [destruct (is_object v)|];
    try destruct (respond c (world st)) as [w' r]; cbn;
    first [ exists [(c, r)]; split; [reflexivity | repeat constructor; exact Hc]
          | exists []; rewrite app_nil_r; split; [reflexivity | constructor] ].
Qed.

Lemma emits_getattr {A} (P : Call -> Prop) (name : string)
    (f : Connection -> option A) : emits P (getattr name f).
Proof.
  apply emits_nothing. intros st. unfold getattr.
  destruct (f (self st)); reflexivity.
Qed.

Lemma emits_setattr (P : Call -> Prop) (f : Connection -> Connection) :
  emits P (setattr f).
Proof. apply emits_nothing. reflexivity. Qed.

Lemma emits_weaken {A} (P Q : Call -> Prop) (m : M W A) :
  (forall c, P c -> Q c) -> emits P m -> emits Q m.
Proof.
  intros HPQ Hm st. destruct (Hm st) as (new & E & F). exists new.
  split; [exact E|]. eapply List.Forall_impl; [|exact F]. intros ev. apply HPQ.
Qed.

Lemma frame_ret {A} (a : A) : frame (ret a).
Proof. intros st. reflexivity. Qed.

Lemma frame_raise {A} (e : exn) : frame (@raise W A e).
Proof. intros st. reflexivity. Qed.

Lemma frame_bind {A B} (m : M W A) (k : A -> M W B) :
  frame m -> (forall a, frame (k a)) -> frame (bind m k).
Proof.
  intros Hm Hk st. rewrite fst_bind.
  destruct (snd (m st)) as [a|e]; [rewrite Hk|]; apply Hm.
Qed.

Lemma frame_try {A} (m : M W A) (c : exn -> bool) (h : M W A) :
  frame m -> frame h -> frame (try_except m c h).
Proof.
  intros Hm Hh st. unfold try_except. specialize (Hm st).
  destruct (m st) as [st1 [a|e]]; cbn [fst] in *; [exact Hm|].
  destruct (c e); cbn [fst]; [rewrite Hh|]; exact Hm.
Qed.

Lemma frame_call (c : Call) : frame (call c).
Proof.
  intros st. unfold call.
  destruct (receiver c) as [[v meth]|]; [destruct (is_object v)|];
    try destruct (respond c (world st)) as [w' r]; reflexivity.
Qed.

Lemma frame_getattr {A} (name : string) (f : Connection -> option A) :
  frame (getattr name f).
Proof. intros st. unfold getattr. destruct (f (self st)); reflexivity. Qed.

End MonadFacts.

Create HintDb py discriminated.

#[export] Hint Resolve emits_ret emits_raise emits_getattr emits_setattr
  frame_ret frame_raise frame_call frame_getattr : py.

(** Walks down a computation built from [bind], [try_except], [if] and
    [match]; a call is left to [tac]. *)
Ltac monad_walk_with tac :=
  repeat first
    [ progress intros
    | apply emits_bind | apply emits_try
    | apply frame_bind | apply frame_try
    | solve [auto with py]
    | apply emits_call; solve [tac]
    | match goal with
      | |- emits _ (if ?b then _ else _) => destruct b
      | |- frame (if ?b then _ else _) => destruct b
      | |- emits _ (match ?x with _ => _ end) => destruct x
      | |- frame (match ?x with _ => _ end) => destruct x
      end ].

Ltac monad_walk := monad_walk_with ltac:(first [exact I | reflexivity | split; reflexivity]).

Ltac unfold_ops :=
  unfold do_op, get, getfo, put, chdir, getcwd, listdir, mkdir, remove, rmdir,
    rename, stat, lstat, open, __del__, __enter__, __exit__, close, execute,
    _sftp_connect, sftp_call, set_sftp, set_sftp_live, set_tranport_live,
    set_transport.

(** Case analysis on every value a computation branches on. *)
Ltac destruct_innermost x :=
  lazymatch x with
  | context [match ?y with _ => _ end] => destruct_innermost y
  | _ => destruct x eqn:?
  end.

Ltac monad_cases :=
  repeat (cbn in *;
          match goal with
          | |- context [match ?x with _ => _ end] => destruct_innermost x
          end);
  cbn in *.

Section OperationFacts.

Context {W : Type} `{Collaborator W}.

Local Open Scope py_scope.


Lemma frame_execute (command : Value) : frame (execute command).
Proof. unfold execute. monad_walk. Qed.


(** [execute] goes to the transport: it neither makes a session nor calls
    one. *)
Lemma execute_emits (command : Value) :
  emits (fun c => is_from_transport c = false /\ session_call c = false)
        (execute command).
Proof. unfold execute. monad_walk. Qed.



Lemma close_transport (st : St W) :
  _transport (self (fst (close st))) = _transport (self st)
  /\ (_tranport_live (self st) = Some false ->
      _tranport_live (self (fst (close st))) = Some false).
Proof.
  unfold_ops. unfold bind, getattr, call, setattr, ret.
  monad_cases; split; auto; congruence.
Qed.

End OperationFacts.

(** ** The invariant of the two flags *)





Section Invariant.

Context {W : Type} `{Collaborator W}.

Local Open Scope py_scope.






Lemma run_ops_cons (o : Op) (ops : list Op) (st : St W) :
  run_ops (o :: ops) st = run_ops ops (fst (do_op o st)).
Proof. reflexivity. Qed.






Lemma frame_authenticate (username private_key password private_key_pass : Value) :
  frame (authenticate (W := W) username private_key password private_key_pass).
Proof. unfold authenticate, default_key_exists, load_key. monad_walk. Qed.



End Invariant.

(** ** The session is ensured before a remote operation delegates *)

Section Session.

Context {W : Type} `{Collaborator W}.

Local Open Scope py_scope.

(** What an operation taking [st] to [st'] owes the session: every call it
    made on the session was made on [self._sftp] with the session flag up,
    and was either its only call, the session being open already, or came
    right after the [from_transport] that opened the session. *)
Definition ensured (st st' : St W) : Prop :=
  exists new,
    trace st' = trace st ++ new
    /\ forall c r, In (c, r) new -> session_call c = true ->
         sftp_live (self st') = true
         /\ receiver_value c = _sftp (self st')
         /\ ((sftp_live (self st) = true /\ new = [(c, r)])
             \/ (sftp_live (self st) = false
                 /\ exists t s, new = [(SFTPClient_from_transport t, Ok s); (c, r)])).

Local Opaque split.

Lemma remote_op_ensures (o : Op) (st : St W) :
  remote_op o = true -> ensured st (fst (do_op o st)).
Proof.
  destruct o; intros R; try discriminate R; clear R;
    unfold_ops; unfold bind, getattr, call, setattr, ret, raise;
    monad_cases;
    unfold ensured, sftp_live;
    repeat match goal with
           | E : (_, _) = (_, _) |- _ => injection E as <- <-
           | E : Ok _ = Ok _ |- _ => injection E as <-
           | E : Some _ = Some _ |- _ => injection E as <-
           end;
    cbn in *; rewrite <- ?app_assoc; cbn [app];
    (first [ eexists; split; [reflexivity|]
           | exists []; split; [symmetry; apply app_nil_r|] ]);
    intros cc rr Hin Hs; cbn in Hin;
    repeat match goal with
           | Hin : _ \/ _ |- _ => destruct Hin as [Hin|Hin]
           | Hin : False |- _ => destruct Hin
           | Hin : (_, _) = (_, _) |- _ => injection Hin as <- <-
           end;
    try discriminate Hs;
    repeat match goal with
           | Hb : negb ?b = _ |- _ => destruct b; cbn in Hb; try discriminate Hb
           end;
    repeat match goal with E : _ = _ |- _ => rewrite E in * end;
    cbn;
    (split; [reflexivity|]); (split; [reflexivity|]);
    first [ left; split; reflexivity
          | right; split; [reflexivity | eexists; eexists; reflexivity] ].
Qed.

Local Transparent split.

Lemma sftp_connect_idempotent (st st1 : St W) :
  _sftp_connect st = (st1, Ok tt) ->
  sftp_live (self st1) = true /\ _sftp_connect st1 = (st1, Ok tt).
Proof.
  unfold_ops. unfold bind, getattr, call, setattr, ret, sftp_live. cbn.
  destruct (_sftp_live (self st)) as [[|]|] eqn:El; cbn.
  - intros [= <-]. rewrite El. cbn. split; reflexivity.
  - destruct (_transport (self st)) as [t|] eqn:Et; cbn; [|discriminate].
    destruct (respond (SFTPClient_from_transport t) (world st)) as [w' [s|e]];
      cbn; intros [= <-]; cbn. split; reflexivity.
  - discriminate.
Qed.

Lemma sftp_connect_first (st st1 : St W) :
  _sftp_live (self st) = Some false ->
  _sftp_connect st = (st1, Ok tt) ->
  exists t s,
    _transport (self st) = Some t
    /\ trace st1 = trace st ++ [(SFTPClient_from_transport t, Ok s)]
    /\ _sftp (self st1) = Some s.
Proof.
  intros Hl. unfold_ops. unfold bind, getattr, call, setattr, ret.
  rewrite Hl. monad_cases; intros E; try discriminate E; injection E as <-; cbn.
  repeat match goal with
         | E : (_, _) = (_, _) |- _ => injection E as <- <-
         | E : Ok _ = Ok _ |- _ => injection E as <-
         end.
  eexists; eexists; repeat split; reflexivity.
Qed.

End Session.

(** ** Theorems: session and transport *)

(** C5, amended.  [_sftp_connect] is idempotent: once it has returned, the
    session flag is up and a further call changes nothing, neither the
    object nor the collaborator nor the trace; a call that finds the flag
    down and returns has made the session from the transport with exactly
    one [SFTPClient.from_transport].  Each of the thirteen methods [get],
    [getfo], [put], [chdir], [getcwd], [listdir], [mkdir], [remove],
    [rmdir], [rename], [stat], [lstat] and [open] calls the session only on
    [self._sftp] with the flag up, the call being its only one when the
    session was open and following the [from_transport] that opened it
    otherwise.  [execute] is not one of them: it leaves the attributes as
    they are, makes no session and calls none. *)
Theorem session_ensured_before_delegation :
  forall (W : Type) (C : Collaborator W),
    (forall st st1 : St W,
        _sftp_connect st = (st1, Ok tt) ->
        sftp_live (self st1) = true /\ _sftp_connect st1 = (st1, Ok tt))
    /\ (forall st st1 : St W,
        _sftp_live (self st) = Some false ->
        _sftp_connect st = (st1, Ok tt) ->
        exists t s,
          _transport (self st) = Some t
          /\ trace st1 = trace st ++ [(SFTPClient_from_transport t, Ok s)]
          /\ _sftp (self st1) = Some s)
    /\ (forall (o : Op) (st : St W),
        remote_op o = true -> ensured st (fst (do_op o st)))
    /\ (forall (command : Value) (st : St W),
        self (fst (execute command st)) = self st
        /\ exists new,
            trace (fst (execute command st)) = trace st ++ new
            /\ Forall (fun ev => is_from_transport (fst ev) = false
                                 /\ session_call (fst ev) = false) new).
Proof.
  intros W C. split; [|split; [|split]].
  - apply sftp_connect_idempotent.
  - apply sftp_connect_first.
  - apply remote_op_ensures.
  - intros command st. split; [apply frame_execute|apply execute_emits].
Qed.

(** The theorem of C5 at work: [stat] on a connection just opened. *)
Lemma session_ensured_before_delegation_witness :
  remote_op (op_stat "readme.txt") = true
  /\ ensured (Sim.connected Sim.machine)
       (fst (do_op (op_stat "readme.txt") (Sim.connected Sim.machine))).
Proof.
  split; [reflexivity|].
  apply (proj1 (proj2 (proj2
           (session_ensured_before_delegation Sim.env Sim.collaborator)))).
  reflexivity.
Defined.

(** C5 as stated fails for [execute]: on a connection just opened it runs
    the command and returns, and the session is still not open. *)
Lemma execute_does_not_open_session :
  ~ (forall (st : St Sim.env) (command v : Value),
        snd (execute command st) = Ok v ->
        sftp_live (self (fst (execute command st))) = true).
Proof.
  intros Hc.
  specialize (Hc (Sim.connected Sim.machine) (VStr "ls") (VSeq []) eq_refl).
  vm_compute in Hc. discriminate Hc.
Qed.

(** A machine whose environment has no [LOGNAME]. *)
Definition no_logname : Sim.env :=
  Sim.mkEnv None [] [] O [] true ∅.

(** C6, where the code departs from it.  When [__init__] is given no user
    name and [os.environ['LOGNAME']] raises, line 83 is left before
    [_tranport_live] is assigned at line 92; on the object left behind
    [close], and [__del__] with it, raises [AttributeError]. *)
Theorem close_after_failed_init_raises :
  let r := __init__ "localhost" VNone VNone (VStr "test1357") 22 VNone
             (VBool false) (Sim.start no_logname) in
  snd r = Raise (KeyError "LOGNAME")
  /\ self (fst r) = mkConnection (Some false) (Some VNone) None None
  /\ snd (close (fst r)) = Raise (AttributeError "_tranport_live")
  /\ snd (__del__ (fst r)) = Raise (AttributeError "_tranport_live").
Proof. vm_compute. repeat split; reflexivity. Qed.



(** ** Theorems: modes and paths *)




Section OpenSession.

Context {W : Type} `{Collaborator W}.

Lemma sftp_connect_open (st : St W) :
  _sftp_live (self st) = Some true -> _sftp_connect st = (st, Ok tt).
Proof.
  intros Hl. unfold _sftp_connect, bind, getattr, ret. rewrite Hl. reflexivity.
Qed.

Lemma sftp_call_open (c : Value -> Call) (st : St W) (s : nat) (meth : string) :
  _sftp (self st) = Some (VObj s) ->
  receiver (c (VObj s)) = Some (VObj s, meth) ->
  sftp_call c st
  = (mkSt (self st) (fst (respond (c (VObj s)) (world st)))
       (trace st ++ [(c (VObj s), snd (respond (c (VObj s)) (world st)))]),
     snd (respond (c (VObj s)) (world st))).
Proof.
  intros Hs Hr. unfold sftp_call, bind, getattr, call. rewrite Hs, Hr. cbn.
  destruct (respond (c (VObj s)) (world st)); reflexivity.
Qed.

(** A method that ensures the session and makes one call on it, run on an
    open session. *)
Lemma delegate_open (c : Value -> Call) (st : St W) (s : nat) (meth : string) :
  _sftp_live (self st) = Some true ->
  _sftp (self st) = Some (VObj s) ->
  receiver (c (VObj s)) = Some (VObj s, meth) ->
  bind _sftp_connect (fun _ => sftp_call c) st
  = (mkSt (self st) (fst (respond (c (VObj s)) (world st)))
       (trace st ++ [(c (VObj s), snd (respond (c (VObj s)) (world st)))]),
     snd (respond (c (VObj s)) (world st))).
Proof.
  intros Hl Hs Hr. unfold bind at 1. rewrite (sftp_connect_open st Hl).
  eapply sftp_call_open; eassumption.
Qed.

End OpenSession.





(** ** Theorems: credentials *)



Definition no_password_or_key : exn :=
  CredentialException "You have not specified a password or key.".

Section Credentials.

Context {W : Type} `{Collaborator W}.

Local Open Scope py_scope.


Local Opaque truthy is_None isinstance_AgentKey.


Local Transparent truthy is_None isinstance_AgentKey.

End Credentials.

(** A machine with a DSA key at the default place and no RSA key. *)
Definition only_dsa_key : Sim.env :=
  Sim.mkEnv (Some "test") ["/home/user/.ssh/id_dsa"%string]
    ["/home/user/.ssh/id_dsa"%string] O [] true ∅.



(** The test of the specification for C1, run: neither password nor key, no
    default key file, and [__init__] raises [CredentialException] without a
    [connect]; a DSA key at the default place, and it is the one loaded. *)
Lemma init_without_credentials :
  snd (__init__ "localhost" (VStr "test") VNone VNone 22 VNone (VBool false)
         (Sim.start Sim.machine))
  = Raise no_password_or_key
  /\ trace (fst (__init__ "localhost" (VStr "test") VNone VNone 22 VNone
                   (VBool false) (Sim.start only_dsa_key)))
     = [ (paramiko_Transport "localhost" 22, Ok (VObj 0));
         (os_path_expanduser (VStr "~/.ssh/id_rsa"), Ok (VStr "/home/user/.ssh/id_rsa"));
         (os_path_exists (VStr "/home/user/.ssh/id_rsa"), Ok (VBool false));
         (os_path_expanduser (VStr "~/.ssh/id_dsa"), Ok (VStr "/home/user/.ssh/id_dsa"));
         (os_path_exists (VStr "/home/user/.ssh/id_dsa"), Ok (VBool true));
         (os_path_expanduser (VStr "~/.ssh/id_dsa"), Ok (VStr "/home/user/.ssh/id_dsa"));
         (RSAKey_from_private_key_file (VStr "/home/user/.ssh/id_dsa") VNone,
          Raise SSHException);
         (DSSKey_from_private_key_file (VStr "/home/user/.ssh/id_dsa") VNone,
          Ok (VObj 1));
         (Transport_connect (VObj 0) (VStr "test") VNone (VObj 1), Ok VNone) ].
Proof. split; vm_compute; reflexivity. Qed.

(** ** Theorems: path algebra *)

Module PathFacts.

Import Path.









End PathFacts.

Module PathRoundTrip.

Import Path PathFacts.






End PathRoundTrip.




(** ** Theorems: existence helpers *)

Section Existence.

Context {W : Type} `{Collaborator W}.

(** A helper that turns the outcome of [probe] into a boolean: true when
    [probe] returns, false when it raises a not-found error, the error
    itself otherwise. *)
Lemma not_found_to_false (probe : M W Value) (st : St W) :
  let helper := try_except (bind probe (fun _ => ret (VBool true)))
                  is_not_found (ret (VBool false)) in
  (forall st', helper st = (st', Ok (VBool true)) <-> exists v, probe st = (st', Ok v))
  /\ (forall st' e, probe st = (st', Raise e) -> is_not_found e = true ->
                    helper st = (st', Ok (VBool false)))
  /\ (forall st' e, probe st = (st', Raise e) -> is_not_found e = false ->
                    helper st = (st', Raise e)).
Proof.
  cbn zeta. unfold try_except, bind, ret.
  destruct (probe st) as [st1 [v|e]].
  - split; [|split].
    + intros st'. split.
      * intros [= <-]. eauto.
      * intros [v' [= <- _]]. reflexivity.
    + intros st' e [=].
    + intros st' e [=].
  - split; [|split].
    + intros st'. split.
      * destruct (is_not_found e); intros [=].
      * intros [v' [=]].
    + intros st' e' [= <- <-] ->. reflexivity.
    + intros st' e' [= <- <-] ->. reflexivity.
Qed.

Lemma mode_not_both (m : Z) : S_ISDIR m && S_ISREG m = false.
Proof.
  unfold S_ISDIR, S_ISREG. destruct (S_IFMT m =? 16384) eqn:E; [|reflexivity].
  apply Z.eqb_eq in E. rewrite E. reflexivity.
Qed.

Lemma isdir_isfile_exclusive (p : string) (st : St W) :
  ~ (snd (isdir p st) = Ok (VBool true) /\ snd (isfile p st) = Ok (VBool true)).
Proof.
  intros [Hd Hf]. revert Hd Hf.
  unfold isdir, isfile, try_except, bind, st_mode, ret, raise.
  destruct (stat p st) as [st1 [v|e]]; cbn.
  - destruct v as [| | | | | |m|]; cbn; try discriminate.
    intros [= Hd] [= Hf]. pose proof (mode_not_both m) as Hm.
    rewrite Hd, Hf in Hm. discriminate Hm.
  - destruct (is_not_found e); cbn; discriminate.
Qed.

Lemma isdir_isfile_missing (p : string) (st st' : St W) (e : exn) :
  stat p st = (st', Raise e) -> is_not_found e = true ->
  isdir p st = (st', Ok (VBool false)) /\ isfile p st = (st', Ok (VBool false)).
Proof.
  intros Hs He. unfold isdir, isfile, try_except, bind, ret.
  rewrite Hs, He. split; reflexivity.
Qed.

End Existence.

(** ** The remote tree of the stand-in collaborator *)

Module SimFacts.

Import Sim.

(** A connection whose session is open, with client [s]. *)
Definition open_session (st : St env) (s : nat) : Prop :=
  _sftp_live (self st) = Some true /\ _sftp (self st) = Some (VObj s).

Lemma stat_open (st : St env) (s : nat) (p : string) :
  open_session st s ->
  stat p st
  = (mkSt (self st) (world st)
       (trace st ++ [(SFTPClient_stat (VObj s) p, fs_stat (fs (world st)) p)]),
     fs_stat (fs (world st)) p).
Proof.
  intros [Hl Hs]. unfold stat.
  rewrite (delegate_open (fun s0 => SFTPClient_stat s0 p) st s "stat" Hl Hs eq_refl).
  reflexivity.
Qed.

Lemma lstat_open (st : St env) (s : nat) (p : string) :
  open_session st s ->
  lstat p st
  = (mkSt (self st) (world st)
       (trace st ++ [(SFTPClient_lstat (VObj s) p, fs_lstat (fs (world st)) p)]),
     fs_lstat (fs (world st)) p).
Proof.
  intros [Hl Hs]. unfold lstat.
  rewrite (delegate_open (fun s0 => SFTPClient_lstat s0 p) st s "lstat" Hl Hs eq_refl).
  reflexivity.
Qed.

(** A symbolic link whose target is not there: [lstat] finds the link,
    [stat] finds nothing. *)
Lemma dangling_link (m : gmap string node) (link target : string) :
  node_at m link = Some (Symlink target) ->
  node_at m target = None ->
  fs_lstat m link = Ok (VAttrs (mode_of (Symlink target)))
  /\ fs_stat m link = Raise (IOError ENOENT).
Proof.
  intros Hlink Htarget. unfold fs_lstat, fs_stat, MAXSYMLINKS.
  cbn [resolve]. rewrite Hlink, Htarget. split; reflexivity.
Qed.

End SimFacts.

(** C2.  [exists] returns true exactly when [stat] returns; a not-found
    error of [stat] becomes false, any other error is raised as it came.
    [lexists] is the same on [lstat]; so a symbolic link whose target is
    missing is [lexists] and not [exists].  [isdir] and [isfile] are never
    both true of a path, and both false when [stat] does not find it. *)
Theorem exists_iff_stat_succeeds :
  forall (W : Type) (C : Collaborator W) (p : string) (st : St W),
    (forall st', exists_ p st = (st', Ok (VBool true))
                 <-> exists v, stat p st = (st', Ok v))
    /\ (forall st' e, stat p st = (st', Raise e) -> is_not_found e = true ->
                      exists_ p st = (st', Ok (VBool false)))
    /\ (forall st' e, stat p st = (st', Raise e) -> is_not_found e = false ->
                      exists_ p st = (st', Raise e))
    /\ (forall st', lexists p st = (st', Ok (VBool true))
                    <-> exists v, lstat p st = (st', Ok v))
    /\ (forall st' e, lstat p st = (st', Raise e) -> is_not_found e = true ->
                      lexists p st = (st', Ok (VBool false)))
    /\ (forall st' e, lstat p st = (st', Raise e) -> is_not_found e = false ->
                      lexists p st = (st', Raise e))
    /\ ~ (snd (isdir p st) = Ok (VBool true) /\ snd (isfile p st) = Ok (VBool true))
    /\ (forall st' e, stat p st = (st', Raise e) -> is_not_found e = true ->
                      isdir p st = (st', Ok (VBool false))
                      /\ isfile p st = (st', Ok (VBool false)))
    /\ (forall (sim : St Sim.env) (s : nat) (target : string),
          SimFacts.open_session sim s ->
          Sim.node_at (Sim.fs (world sim)) p = Some (Sim.Symlink target) ->
          Sim.node_at (Sim.fs (world sim)) target = None ->
          snd (lexists p sim) = Ok (VBool true)
          /\ snd (exists_ p sim) = Ok (VBool false)).
Proof.
  intros W C p st.
  destruct (not_found_to_false (stat p) st) as (E1 & E2 & E3).
  destruct (not_found_to_false (lstat p) st) as (L1 & L2 & L3).
  split; [exact E1|]. split; [exact E2|]. split; [exact E3|].
  split; [exact L1|]. split; [exact L2|]. split; [exact L3|].
  split; [apply isdir_isfile_exclusive|].
  split; [intros st' e; apply isdir_isfile_missing|].
  intros sim s target Hopen Hlink Htarget.
  destruct (SimFacts.dangling_link _ _ _ Hlink Htarget) as [Hl Hs].
  unfold lexists, exists_, try_except, bind, ret.
  rewrite (SimFacts.lstat_open sim s p Hopen), (SimFacts.stat_open sim s p Hopen).
  rewrite Hl, Hs. split; reflexivity.
Qed.

(** A remote tree with a file, a directory and a link to a missing file. *)
Definition sample_tree : gmap string Sim.node :=
  <["readme.txt" := Sim.File]>
    (<["pub" := Sim.Dir]>
       (<["honey-boo-boo" := Sim.Symlink "/tmp/gone"]> ∅)).

Definition sample_machine : Sim.env :=
  Sim.mkEnv (Some "test") [] [] O [] true sample_tree.

(** The theorem of C2 at work, on the link of [sample_tree]; and the tests
    of the helpers, run. *)
Lemma exists_iff_stat_succeeds_witness :
  let st := run_ops [op_sftp_connect] (Sim.connected sample_machine) in
  (SimFacts.open_session st 1
   /\ Sim.node_at (Sim.fs (world st)) "honey-boo-boo"
      = Some (Sim.Symlink "/tmp/gone")
   /\ Sim.node_at (Sim.fs (world st)) "/tmp/gone" = None)
  /\ snd (lexists "honey-boo-boo" st) = Ok (VBool true)
  /\ snd (exists_ "honey-boo-boo" st) = Ok (VBool false).
Proof.
  intros st.
  assert (Hopen : SimFacts.open_session st 1) by (split; reflexivity).
  assert (Hlink : Sim.node_at (Sim.fs (world st)) "honey-boo-boo"
                  = Some (Sim.Symlink "/tmp/gone")) by (vm_compute; reflexivity).
  assert (Hgone : Sim.node_at (Sim.fs (world st)) "/tmp/gone" = None)
    by (vm_compute; reflexivity).
  split; [repeat split; assumption|].
  exact (proj2 (proj2 (proj2 (proj2 (proj2 (proj2 (proj2 (proj2
           (exists_iff_stat_succeeds Sim.env Sim.collaborator "honey-boo-boo" st))))))))
           st 1%nat "/tmp/gone" Hopen Hlink Hgone).
Defined.

Lemma helpers_on_sample_tree :
  let st := Sim.connected sample_machine in
  snd (exists_ "readme.txt" st) = Ok (VBool true)
  /\ snd (exists_ "pee-a-boo.txt" st) = Ok (VBool false)
  /\ snd (exists_ "pub" st) = Ok (VBool true)
  /\ snd (lexists "pee-a-boo.txt" st) = Ok (VBool false)
  /\ snd (isfile "readme.txt" st) = Ok (VBool true)
  /\ snd (isfile "pub" st) = Ok (VBool false)
  /\ snd (isdir "readme.txt" st) = Ok (VBool false)
  /\ snd (isdir "pub" st) = Ok (VBool true)
  /\ snd (isdir "pee-a-boo.txt" st) = Ok (VBool false)
  /\ snd (isfile "pee-a-boo.txt" st) = Ok (VBool false).
Proof. vm_compute. repeat split; reflexivity. Qed.

(** ** Theorems: makedirs *)

Module MakedirsFacts.

Import Sim Path PathFacts PathRoundTrip SimFacts.


















End MakedirsFacts.


(** A remote tree in which [foo/bar] is there already. *)
Definition partial_tree : gmap string Sim.node :=
  <["foo/bar" := Sim.Dir]> (<["foo" := Sim.Dir]> ∅).

Definition partial_machine : Sim.env :=
  Sim.mkEnv (Some "test") [] [] O [] true partial_tree.


(** The test of [makedirs], run: three directories made on an empty tree;
    with [foo/bar] there, one made and two calls let pass. *)
Lemma makedirs_on_sample_trees :
  let st := Sim.connected Sim.machine in
  let st' := fst (makedirs "foo/bar/baz" (ModeInt 777) st) in
  let pt := Sim.connected partial_machine in
  let pt' := fst (makedirs "foo/bar/baz" (ModeInt 777) pt) in
  snd (makedirs "foo/bar/baz" (ModeInt 777) st) = Ok VNone
  /\ map_to_list (Sim.fs (world st'))
     = [("foo/bar/baz", Sim.Dir); ("foo/bar", Sim.Dir); ("foo", Sim.Dir)]%string
  /\ snd (isdir "foo/bar/baz" st') = Ok (VBool true)
  /\ skipn 3 (trace pt')
     = [(SFTPClient_mkdir (VObj 1) "foo" 511, Raise (IOError EEXIST));
        (SFTPClient_mkdir (VObj 1) "foo/bar" 511, Raise (IOError EEXIST));
        (SFTPClient_mkdir (VObj 1) "foo/bar/baz" 511, Ok VNone)]
  /\ snd (isdir "foo/bar/baz" pt') = Ok (VBool true).
Proof. vm_compute. repeat split; reflexivity. Qed.

(** ** Closing a constructed connection

    What C6 says of [close] does hold of an object on which [__init__] got
    as far as line 92. *)

Section Closing.

Context {W : Type} `{Collaborator W}.

(** Once [close] has returned, both flags are down and a further [close]
    calls nothing and changes nothing. *)
Lemma close_idempotent (st st1 : St W) (v : Value) :
  close st = (st1, Ok v) ->
  _sftp_live (self st1) = Some false
  /\ _tranport_live (self st1) = Some false
  /\ close st1 = (st1, Ok VNone).
Proof.
  unfold_ops. unfold bind, getattr, call, setattr, ret.
  monad_cases; intros E; try discriminate E; injection E as <- <-; cbn;
    repeat match goal with
           | E : (_, _) = (_, _) |- _ => injection E as <- <-
           | E : Ok _ = Ok _ |- _ => injection E as <-
           | E : Some _ = Some _ |- _ => injection E as <-
           end; cbn in *;
    repeat match goal with E : _ = _ |- _ => rewrite E in * end; cbn;
    repeat split; try reflexivity; try congruence.
Qed.

(** With both flags up, the session is closed first and the transport
    second; the transport is not reached when closing the session raises. *)
Lemma close_session_then_transport (st : St W) (s t : nat) :
  _sftp_live (self st) = Some true -> _sftp (self st) = Some (VObj s) ->
  _tranport_live (self st) = Some true -> _transport (self st) = Some (VObj t) ->
  (exists e, trace (fst (close st))
             = trace st ++ [(SFTPClient_close (VObj s), Raise e)])
  \/ (exists v r, trace (fst (close st))
                  = trace st ++ [(SFTPClient_close (VObj s), Ok v);
                                 (Transport_close (VObj t), r)]).
Proof.
  intros Hl Hs Ht Hv. unfold_ops. unfold bind, getattr, call, setattr, ret.
  rewrite Hl, Hs. cbn.
  destruct (respond (SFTPClient_close (VObj s)) (world st)) as [w1 [v|e]]; cbn.
  - rewrite Ht, Hv. cbn.
    destruct (respond (Transport_close (VObj t)) w1) as [w2 [v2|e2]]; cbn;
      right; eexists; eexists; rewrite <- app_assoc; reflexivity.
  - left. eexists. reflexivity.
Qed.

End Closing.

(** * Further properties of the module *)

(** ** Keys *)

(** [__init__], lines 115-124.  The key file is read as an RSA key first.
    When that returns, or raises anything but an [SSHException], the DSS
    reader is never called and the outcome is the RSA reader's.  When it
    raises an [SSHException] (or one of its subclasses, as
    [PasswordRequiredException] for an encrypted key), the file is read
    again as a DSS key and the outcome is the DSS reader's alone: the first
    error is dropped. *)
Theorem load_key_rsa_then_dss :
  forall (W : Type) (C : Collaborator W) (private_key private_key_pass : Value)
         (st : St W) (w1 w2 : W) (file : Value) (r : result Value),
    respond (os_path_expanduser private_key) (world st) = (w1, Ok file) ->
    respond (RSAKey_from_private_key_file file private_key_pass) w1 = (w2, r) ->
    let rsa := (RSAKey_from_private_key_file file private_key_pass, r) in
    let dss := DSSKey_from_private_key_file file private_key_pass in
    match r with
    | Ok key =>
        load_key private_key private_key_pass st
        = (mkSt (self st) w2
             (trace st ++ [(os_path_expanduser private_key, Ok file); rsa]),
           Ok key)
    | Raise e =>
        if is_SSHException e then
          load_key private_key private_key_pass st
          = (mkSt (self st) (fst (respond dss w2))
               (trace st ++ [(os_path_expanduser private_key, Ok file); rsa;
                             (dss, snd (respond dss w2))]),
             snd (respond dss w2))
        else
          load_key private_key private_key_pass st
          = (mkSt (self st) w2
               (trace st ++ [(os_path_expanduser private_key, Ok file); rsa]),
             Raise e)
    end.
Proof.
  intros W C private_key private_key_pass st w1 w2 file r Hexp Hrsa rsa dss.
  subst rsa dss. unfold load_key, try_except, bind, call. cbn [receiver].
  rewrite Hexp. cbn [world trace self]. rewrite Hrsa. cbn [world trace self].
  destruct r as [key|e]; [rewrite <- app_assoc; reflexivity|].
  destruct (is_SSHException e).
  - destruct (respond (DSSKey_from_private_key_file file private_key_pass) w2)
      as [w3 r3]. cbn. rewrite <- !app_assoc. reflexivity.
  - rewrite <- app_assoc. reflexivity.
Qed.

(** The theorem at work: a DSS key at the default place. *)
Lemma load_key_rsa_then_dss_witness :
  let st := Sim.start only_dsa_key in
  load_key (VStr "~/.ssh/id_dsa") VNone st
  = (mkSt (self st) (Sim.with_next only_dsa_key 1)
       (trace st
        ++ [(os_path_expanduser (VStr "~/.ssh/id_dsa"),
             Ok (VStr "/home/user/.ssh/id_dsa"));
            (RSAKey_from_private_key_file (VStr "/home/user/.ssh/id_dsa") VNone,
             Raise SSHException);
            (DSSKey_from_private_key_file (VStr "/home/user/.ssh/id_dsa") VNone,
             Ok (VObj 0))]),
     Ok (VObj 0)).
Proof.
  intros st.
  exact (load_key_rsa_then_dss Sim.env Sim.collaborator (VStr "~/.ssh/id_dsa")
           VNone st only_dsa_key only_dsa_key (VStr "/home/user/.ssh/id_dsa")
           (Raise SSHException) eq_refl eq_refl).
Defined.

(** [__init__], lines 115 and 125-128.  A [paramiko.AgentKey] given as
    private key is handed to [Transport.connect] as it is: no path is
    expanded, no file is read, [private_key_pass] plays no part, and the one
    call made is the [connect]. *)
Theorem agent_key_used_directly :
  forall (W : Type) (C : Collaborator W) (username private_key_pass : Value)
         (id t : nat) (st : St W),
    _transport (self st) = Some (VObj t) ->
    let connect := Transport_connect (VObj t) username VNone (VAgentKey id) in
    authenticate username (VAgentKey id) VNone private_key_pass st
    = (mkSt (self st) (fst (respond connect (world st)))
         (trace st ++ [(connect, snd (respond connect (world st)))]),
       match snd (respond connect (world st)) with
       | Ok _ => Ok tt
       | Raise e => Raise e
       end).
Proof.
  intros W C username private_key_pass id t st Ht connect. subst connect.
  unfold authenticate, bind, getattr, call, ret. cbn. rewrite Ht. cbn.
  destruct (respond (Transport_connect (VObj t) username VNone (VAgentKey id))
              (world st)) as [w' [v|e]]; reflexivity.
Qed.

Lemma agent_key_used_directly_witness :
  let st := fst (open_transport "localhost" (VStr "test") 22 (VBool false)
                   (Sim.start Sim.machine)) in
  _transport (self st) = Some (VObj 0)
  /\ trace (fst (authenticate (VStr "test") (VAgentKey 7) VNone (VStr "unused") st))
     = trace st
       ++ [(Transport_connect (VObj 0) (VStr "test") VNone (VAgentKey 7), Ok VNone)].
Proof.
  intros st. split; [reflexivity|].
  rewrite (agent_key_used_directly Sim.env Sim.collaborator (VStr "test")
             (VStr "unused") 7 0 st eq_refl).
  reflexivity.
Defined.

(** ** Construction *)

(** [__init__], lines 92-98.  When [paramiko.Transport] raises,
    [AttributeError] and [socket.gaierror] become
    [ConnectionException(host, port)] and every other exception is raised as
    it came; either way nothing is authenticated, the transport flag is
    [False] and the [_transport] attribute is not assigned. *)
Theorem transport_failure_ConnectionException :
  forall (W : Type) (C : Collaborator W) (host : string)
         (username private_key password : Value) (port : Z)
         (private_key_pass : Value) (st : St W) (w' : W) (e : exn),
    truthy username = true ->
    respond (paramiko_Transport host port) (world st) = (w', Raise e) ->
    let r := __init__ host username private_key password port private_key_pass
               (VBool false) st in
    snd r = Raise (if catches_connect e then ConnectionException host port else e)
    /\ self (fst r)
       = mkConnection (Some false) (Some VNone) (Some false) (_transport (self st))
    /\ trace (fst r) = trace st ++ [(paramiko_Transport host port, Raise e)].
Proof.
  intros W C host username private_key password port private_key_pass st w' e
    Hu Hr r. subst r.
  unfold __init__, open_transport, try_except, bind, call, set_sftp_live,
    set_sftp, set_tranport_live, setattr, ret, raise.
  rewrite Hu. cbn. rewrite Hr. cbn.
  destruct (catches_connect e); cbn; repeat split; reflexivity.
Qed.

(** The theorem at work: an empty host name, for which the stand-in raises
    [socket.gaierror]. *)
Lemma transport_failure_ConnectionException_witness :
  let r := __init__ "" (VStr "test") VNone (VStr "pw") 22 VNone (VBool false)
             (Sim.start Sim.machine) in
  snd r = Raise (ConnectionException "" 22)
  /\ self (fst r) = mkConnection (Some false) (Some VNone) (Some false) None.
Proof.
  intros r.
  destruct (transport_failure_ConnectionException Sim.env Sim.collaborator ""
              (VStr "test") VNone (VStr "pw") 22 VNone (Sim.start Sim.machine)
              Sim.machine socket_gaierror eq_refl eq_refl) as (H1 & H2 & _).
  split; [exact H1|exact H2].
Defined.

Lemma open_transport_keeps_username {W : Type} `{Collaborator W}
    (host : string) (username : Value) (port : Z) (log : Value) (st st' : St W)
    (u : Value) :
  truthy username = true ->
  open_transport host username port log st = (st', Ok u) -> u = username.
Proof.
  intros Hu.
  unfold open_transport, try_except, getitem, bind, call, set_sftp_live,
    set_sftp, set_tranport_live, set_transport, setattr, ret, raise.
  rewrite Hu. monad_cases; intros E; try discriminate E; congruence.
Qed.

(** [__init__], lines 82-83.  A user name that is given and not empty is the
    one used, and the environment is not read.  Without one, [LOGNAME] is
    read first of all: its value is the user name, and when it is missing the
    [KeyError] is raised as it is, nothing else having been called and the
    two transport attributes left unassigned. *)
Theorem username_defaults_to_LOGNAME :
  forall (W : Type) (C : Collaborator W) (host : string) (username : Value)
         (port : Z) (log : Value) (st : St W),
    (truthy username = true ->
     forall st' u, open_transport host username port log st = (st', Ok u) ->
                   u = username)
    /\ (truthy username = true ->
        exists new,
          trace (fst (open_transport host username port log st)) = trace st ++ new
          /\ Forall (fun ev => match fst ev with
                               | os_environ _ => False
                               | _ => True
                               end) new)
    /\ (truthy username = false ->
        forall w1 name,
          respond (os_environ "LOGNAME") (world st) = (w1, Ok name) ->
          forall st' u, open_transport host username port log st = (st', Ok u) ->
                        u = name)
    /\ (truthy username = false ->
        forall w1 e,
          respond (os_environ "LOGNAME") (world st) = (w1, Raise e) ->
          open_transport host username port log st
          = (mkSt (mkConnection (Some false) (Some VNone)
                     (_tranport_live (self st)) (_transport (self st)))
               w1 (trace st ++ [(os_environ "LOGNAME", Raise e)]),
             Raise e)).
Proof.
  intros W C host username port log st.
  split; [|split; [|split]].
  - intros Hu st' u. apply open_transport_keeps_username. exact Hu.
  - intros Hu.
    assert (He : emits (fun c => match c with os_environ _ => False | _ => True end)
                   (open_transport (W := W) host username port log)).
    { unfold open_transport, getitem, set_sftp_live, set_sftp, set_tranport_live,
        set_transport. rewrite Hu. cbn [negb]. monad_walk. }
    apply He.
  - intros Hu w1 name Hr st' u.
    unfold open_transport, try_except, getitem, bind, call, set_sftp_live,
      set_sftp, set_tranport_live, set_transport, setattr, ret, raise.
    rewrite Hu. cbn. rewrite Hr.
    monad_cases; intros E; try discriminate E; congruence.
  - intros Hu w1 e Hr.
    unfold open_transport, try_except, getitem, bind, call, set_sftp_live,
      set_sftp, set_tranport_live, set_transport, setattr, ret, raise.
    rewrite Hu. cbn. rewrite Hr. reflexivity.
Qed.

Lemma username_defaults_to_LOGNAME_witness :
  truthy VNone = false
  /\ snd (open_transport "localhost" VNone 22 (VBool false) (Sim.start no_logname))
     = Raise (KeyError "LOGNAME").
Proof.
  split; [reflexivity|].
  rewrite (proj2 (proj2 (proj2
             (username_defaults_to_LOGNAME Sim.env Sim.collaborator "localhost"
                VNone 22 (VBool false) (Sim.start no_logname))))
             eq_refl no_logname (KeyError "LOGNAME") eq_refl).
  reflexivity.
Defined.

Section Construction.

Context {W : Type} `{Collaborator W}.

Local Open Scope py_scope.

Lemma open_transport_returns (host : string) (username : Value) (port : Z)
    (log : Value) (st st1 : St W) (u : Value) :
  open_transport host username port log st = (st1, Ok u) ->
  exists t,
    self st1 = mkConnection (Some false) (Some VNone) (Some true) (Some t)
    /\ last (trace st1) = Some (paramiko_Transport host port, Ok t).
Proof.
  unfold open_transport, try_except, getitem, bind, call, set_sftp_live,
    set_sftp, set_tranport_live, set_transport, setattr, ret, raise.
  monad_cases; intros E; try discriminate E; injection E as <- <-;
    repeat match goal with
           | E : (_, _) = (_, _) |- _ => injection E as <- <-
           | E : Ok _ = Ok _ |- _ => injection E as <-
           end; cbn;
    eexists; (split; [reflexivity|apply last_snoc]).
Qed.

Local Opaque truthy is_None isinstance_AgentKey.

Lemma authenticate_returns (u pk pw pkp t : Value) (st1 st : St W) :
  authenticate u pk pw pkp st1 = (st, Ok tt) ->
  _transport (self st1) = Some t ->
  self st = self st1
  /\ exists cpw cpk v,
      last (trace st) = Some (Transport_connect t u cpw cpk, Ok v)
      /\ (is_None pw = false -> cpw = pw /\ cpk = VNone)
      /\ (is_None pw = true -> cpw = VNone).
Proof.
  unfold authenticate, default_key_exists, load_key, try_except, bind, getattr,
    call, ret, raise.
  monad_cases; intros E; try discriminate E; injection E as <-; intros Ht;
    repeat match goal with
           | E : (_, _) = (_, _) |- _ => injection E as <- <-
           | E : Ok _ = Ok _ |- _ => injection E as <-
           | E : Some _ = Some _ |- _ => injection E as <-
           end; cbn in *;
    repeat match goal with E : Some _ = Some _ |- _ => injection E as <- end;
    (split; [reflexivity|]);
    eexists; eexists; eexists; (split; [apply last_snoc|]);
    split; intros Hp; try (rewrite Hp in *; discriminate); auto.
Qed.
Local Transparent truthy is_None isinstance_AgentKey.

Lemma authenticate_no_session (u pk pw pkp : Value) :
  emits (fun c => is_from_transport c = false)
    (authenticate (W := W) u pk pw pkp).
Proof. unfold authenticate, default_key_exists, load_key. monad_walk. Qed.

Lemma open_transport_no_session (host : string) (username : Value) (port : Z)
    (log : Value) :
  emits (fun c => is_from_transport c = false)
    (open_transport (W := W) host username port log).
Proof.
  unfold open_transport, getitem, set_sftp_live, set_sftp, set_tranport_live,
    set_transport. monad_walk.
Qed.

End Construction.

(** [__init__], lines 71-128.  When [__init__] returns on a new object, the
    object holds the transport [paramiko.Transport] returned with its flag
    up, and no session: [_sftp] is [None], its flag down, and
    [SFTPClient.from_transport] has not been called.  The last call made is
    the [Transport.connect] that returned, on that transport, with the
    password alone when one was given and without a password otherwise. *)
Theorem init_leaves_transport_up_and_no_session :
  forall (W : Type) (C : Collaborator W) (host : string)
         (username private_key password : Value) (port : Z)
         (private_key_pass log : Value) (w : W) (st : St W),
    __init__ host username private_key password port private_key_pass log
      (mkSt blank w []) = (st, Ok tt) ->
    exists t,
      self st = mkConnection (Some false) (Some VNone) (Some true) (Some t)
      /\ In (paramiko_Transport host port, Ok t) (trace st)
      /\ Forall (fun ev => is_from_transport (fst ev) = false) (trace st)
      /\ exists u cpw cpk v,
           last (trace st) = Some (Transport_connect t u cpw cpk, Ok v)
           /\ (truthy username = true -> u = username)
           /\ (is_None password = false -> cpw = password /\ cpk = VNone)
           /\ (is_None password = true -> cpw = VNone).
Proof.
  intros W C host username private_key password port private_key_pass log w st.
  unfold __init__, bind.
  destruct (open_transport host username port log (mkSt blank w []))
    as [st1 [u|e]] eqn:Ho; [|discriminate].
  intros Ha.
  destruct (open_transport_returns _ _ _ _ _ _ _ Ho) as (t & Hself & Hlast).
  assert (Ht : _transport (self st1) = Some t) by (rewrite Hself; reflexivity).
  destruct (authenticate_returns _ _ _ _ _ _ _ Ha Ht)
    as (Hs & cpw & cpk & v & Hconn & Hpw & Hnone).
  destruct (authenticate_no_session u private_key password private_key_pass st1)
    as (n2 & E2 & F2).
  destruct (open_transport_no_session host username port log (mkSt blank w []))
    as (n1 & E1 & F1).
  rewrite Ha in E2. rewrite Ho in E1. cbn [fst trace app] in E1, E2.
  exists t. split; [rewrite Hs; exact Hself|]. split; [|split].
  - rewrite E2. apply in_or_app. left.
    apply last_Some in Hlast as [l' ->]. apply in_or_app. right. left. reflexivity.
  - rewrite E2, E1. apply Forall_app. split; assumption.
  - exists u, cpw, cpk, v. split; [exact Hconn|]. split; [|split; assumption].
    intros Hu.
    exact (open_transport_keeps_username host username port log _ st1 u Hu Ho).
Qed.

(** The theorem at work: a connection opened with a password. *)
Lemma init_leaves_transport_up_and_no_session_witness :
  exists t,
    self (Sim.connected Sim.machine)
    = mkConnection (Some false) (Some VNone) (Some true) (Some t)
    /\ Forall (fun ev => is_from_transport (fst ev) = false)
         (trace (Sim.connected Sim.machine)).
Proof.
  destruct (init_leaves_transport_up_and_no_session Sim.env Sim.collaborator
              "localhost" (VStr "test") VNone (VStr "test1357") 22 VNone
              (VBool false) Sim.machine (Sim.connected Sim.machine) eq_refl)
    as (t & Hs & _ & Hf & _).
  exists t. split; assumption.
Defined.

(** ** execute and close *)

(** [execute], lines 208-214.  With the command run and its standard output
    read, [execute] returns the output lines when there are any, and then
    standard error is never opened; when there are none it returns what
    reading standard error gives. *)
Theorem execute_stdout_else_stderr :
  forall (W : Type) (C : Collaborator W) (command : Value) (st : St W)
         (t ch out : nat) (w1 w2 w3 w4 : W) (v lines : Value),
    _transport (self st) = Some (VObj t) ->
    respond (Transport_open_session (VObj t)) (world st) = (w1, Ok (VObj ch)) ->
    respond (Channel_exec_command (VObj ch) command) w1 = (w2, Ok v) ->
    respond (Channel_makefile (VObj ch) "rb" (-1)) w2 = (w3, Ok (VObj out)) ->
    respond (File_readlines (VObj out)) w3 = (w4, Ok lines) ->
    let ran := mkSt (self st) w4
                 (trace st
                  ++ [(Transport_open_session (VObj t), Ok (VObj ch));
                      (Channel_exec_command (VObj ch) command, Ok v);
                      (Channel_makefile (VObj ch) "rb" (-1), Ok (VObj out));
                      (File_readlines (VObj out), Ok lines)]) in
    if truthy lines then execute command st = (ran, Ok lines)
    else execute command st
         = bind (call (Channel_makefile_stderr (VObj ch) "rb" (-1)))
             (fun err => call (File_readlines err)) ran.
Proof.
  intros W C command st t ch out w1 w2 w3 w4 v lines Ht H1 H2 H3 H4 ran.
  subst ran. unfold execute, bind, getattr, call, ret. rewrite Ht. cbn.
  rewrite H1. cbn. rewrite H2. cbn. rewrite H3. cbn. rewrite H4. cbn.
  rewrite <- !app_assoc. cbn [app].
  destruct (truthy lines); reflexivity.
Qed.

(** The theorem at work: a command that prints nothing, on the stand-in. *)
Lemma execute_stdout_else_stderr_witness :
  snd (execute (VStr "true") (Sim.connected Sim.machine)) = Ok (VSeq []).
Proof.
  pose proof (execute_stdout_else_stderr Sim.env Sim.collaborator (VStr "true")
                (Sim.connected Sim.machine) 0 1 2
                (Sim.with_next Sim.machine 2) (Sim.with_next Sim.machine 2)
                (Sim.with_next Sim.machine 3) (Sim.with_next Sim.machine 3)
                VNone (VSeq []) eq_refl eq_refl eq_refl eq_refl eq_refl) as E.
  cbn [truthy] in E. rewrite E. reflexivity.
Defined.

(** [close], lines 330-339.  With both flags up, the session is closed
    first.  If that raises, [close] raises the same, the transport is not
    closed and both flags stay up.  If it returns, the session flag goes
    down and the transport is closed; the transport flag goes down only when
    that returns, and an exception of it is raised as it came. *)
Theorem close_session_first_then_transport :
  forall (W : Type) (C : Collaborator W) (st : St W) (s t : nat),
    _sftp_live (self st) = Some true -> _sftp (self st) = Some (VObj s) ->
    _tranport_live (self st) = Some true -> _transport (self st) = Some (VObj t) ->
    let sclose := SFTPClient_close (VObj s) in
    let tclose := Transport_close (VObj t) in
    match respond sclose (world st) with
    | (w1, Raise e) =>
        close st = (mkSt (self st) w1 (trace st ++ [(sclose, Raise e)]), Raise e)
    | (w1, Ok v) =>
        match respond tclose w1 with
        | (w2, Raise e) =>
            close st
            = (mkSt (mkConnection (Some false) (Some (VObj s)) (Some true)
                       (Some (VObj t)))
                 w2 (trace st ++ [(sclose, Ok v); (tclose, Raise e)]),
               Raise e)
        | (w2, Ok v2) =>
            close st
            = (mkSt (mkConnection (Some false) (Some (VObj s)) (Some false)
                       (Some (VObj t)))
                 w2 (trace st ++ [(sclose, Ok v); (tclose, Ok v2)]),
               Ok VNone)
        end
    end.
Proof.
  intros W C st s t Hl Hs Ht Hv sclose tclose. subst sclose tclose.
  unfold_ops. unfold bind, getattr, call, setattr, ret.
  rewrite Hl, Hs. cbn.
  destruct (respond (SFTPClient_close (VObj s)) (world st)) as [w1 [v|e]]; cbn;
    [|reflexivity].
  rewrite Ht, Hv. cbn.
  destruct (respond (Transport_close (VObj t)) w1) as [w2 [v2|e2]]; cbn;
    rewrite <- app_assoc, ?Hs, ?Hv, ?Ht; reflexivity.
Qed.

Lemma close_session_first_then_transport_witness :
  let st := run_ops [op_sftp_connect] (Sim.connected Sim.machine) in
  trace (fst (close st))
  = trace st ++ [(SFTPClient_close (VObj 1), Ok VNone);
                 (Transport_close (VObj 0), Ok VNone)].
Proof.
  intros st.
  pose proof (close_session_first_then_transport Sim.env Sim.collaborator st 1 0
                eq_refl eq_refl eq_refl eq_refl) as E.
  cbn zeta in E. change (respond (SFTPClient_close (VObj 1)) (world st))
    with (world st, Ok VNone : result Value) in E.
  cbn iota beta in E. rewrite E. reflexivity.
Defined.

(** ** Modes *)















(** ** Remote operations as a whole *)

(** A successful [SFTPClient.from_transport]. *)
Definition session_made (ev : Event) : bool :=
  match ev with
  | (SFTPClient_from_transport _, Ok _) => true
  | _ => false
  end.

(** The operations that close. *)
Definition closes (o : Op) : bool :=
  match o with
  | op_close | op_del | op_exit => true
  | _ => false
  end.

(** Sessions still to be made: one while the flag is down, none once it is
    up. *)
Definition sessions_left (c : Connection) : nat :=
  if sftp_live c then 0%nat else 1%nat.

Section RemoteOperations.

Context {W : Type} `{Collaborator W}.

Local Opaque split.

(** Whatever a call made during a remote operation raises is what the
    operation raises. *)
Lemma remote_op_raises_what_was_raised (o : Op) (st : St W) :
  remote_op o = true ->
  exists new,
    trace (fst (do_op o st)) = trace st ++ new
    /\ forall c e, In (c, Raise e) new -> snd (do_op o st) = Raise e.
Proof.
  destruct o; intros R; try discriminate R; clear R;
    unfold_ops; unfold bind, getattr, call, setattr, ret, raise;
    monad_cases;
    repeat match goal with
           | E : (_, _) = (_, _) |- _ => injection E as <- <-
           | E : Ok _ = Ok _ |- _ => injection E as <-
           | E : Some _ = Some _ |- _ => injection E as <-
           end;
    cbn in *; rewrite <- ?app_assoc; cbn [app];
    (first [ eexists; split; [reflexivity|]
           | exists []; split; [symmetry; apply app_nil_r|] ]);
    intros cc ee Hin; cbn in Hin;
    repeat match goal with
           | Hin : _ \/ _ |- _ => destruct Hin as [Hin|Hin]
           | Hin : False |- _ => destruct Hin
           | Hin : (_, _) = (_, _) |- _ =>
               first [discriminate Hin | injection Hin as <- <-]
           end;
    try reflexivity; congruence.
Qed.

(** An operation that does not close makes a session only if none is open,
    and then the session is open. *)
Lemma do_op_sessions (o : Op) (st : St W) :
  closes o = false ->
  _sftp_live (self st) <> None ->
  exists new,
    trace (fst (do_op o st)) = trace st ++ new
    /\ (List.length (List.filter session_made new)
        + sessions_left (self (fst (do_op o st))) <= sessions_left (self st))%nat
    /\ _sftp_live (self (fst (do_op o st))) <> None.
Proof.
  destruct o; intros R Hset; try discriminate R; clear R;
    unfold sessions_left, sftp_live;
    unfold_ops; unfold bind, getattr, call, setattr, ret, raise;
    monad_cases;
    repeat match goal with
           | E : (_, _) = (_, _) |- _ => injection E as <- <-
           | E : Ok _ = Ok _ |- _ => injection E as <-
           | E : Some _ = Some _ |- _ => injection E as <-
           end;
    cbn in *; rewrite <- ?app_assoc; cbn [app];
    (first [ eexists; split; [reflexivity|]
           | exists []; split; [symmetry; apply app_nil_r|] ]);
    repeat match goal with
           | Hb : negb ?b = _ |- _ => destruct b; cbn in Hb; try discriminate Hb
           end;
    repeat match goal with E : _ = _ |- _ => rewrite E in * end;
    cbn; (split; [try lia|]); try congruence; try discriminate.
Qed.

Local Transparent split.

End RemoteOperations.

(** The remote operations, lines 136-361.  None of them catches or
    translates anything: whatever a call made in the course of one of the
    thirteen remote operations raises, be it [SFTPClient.from_transport] or
    the call on the session, is what the operation raises. *)
Theorem remote_op_errors_pass_through :
  forall (W : Type) (C : Collaborator W) (o : Op) (st : St W),
    remote_op o = true ->
    exists new,
      trace (fst (do_op o st)) = trace st ++ new
      /\ forall c e, In (c, Raise e) new -> snd (do_op o st) = Raise e.
Proof. intros W C o st. apply remote_op_raises_what_was_raised. Qed.

(** The theorem at work: [stat] of a path that is not there. *)
Lemma remote_op_errors_pass_through_witness :
  remote_op (op_stat "pee-a-boo.txt") = true
  /\ snd (do_op (op_stat "pee-a-boo.txt") (Sim.connected Sim.machine))
     = Raise (IOError ENOENT).
Proof.
  split; [reflexivity|].
  destruct (remote_op_errors_pass_through Sim.env Sim.collaborator
              (op_stat "pee-a-boo.txt") (Sim.connected Sim.machine) eq_refl)
    as (new & Hnew & Hraise).
  apply (Hraise (SFTPClient_stat (VObj 1) "pee-a-boo.txt")).
  assert (E : new = [(SFTPClient_from_transport (VObj 0), Ok (VObj 1));
                     (SFTPClient_stat (VObj 1) "pee-a-boo.txt",
                      Raise (IOError ENOENT))]).
  { apply (app_inv_head (trace (Sim.connected Sim.machine))).
    rewrite <- Hnew. vm_compute. reflexivity. }
  rewrite E. right. left. reflexivity.
Defined.

(** [_sftp_connect], lines 130-134, over a run.  However many operations
    are run on a connection, as long as none of them closes it, at most one
    session is made; and none at all when the session was open at the
    start. *)
Theorem one_session_between_closes :
  forall (W : Type) (C : Collaborator W) (ops : list Op) (st : St W),
    forallb (fun o => negb (closes o)) ops = true ->
    _sftp_live (self st) <> None ->
    exists new,
      trace (run_ops ops st) = trace st ++ new
      /\ (List.length (List.filter session_made new) <= sessions_left (self st))%nat
      /\ (List.length (List.filter session_made new) <= 1)%nat.
Proof.
  intros W C ops.
  assert (Hgen : forall st : St W,
    forallb (fun o => negb (closes o)) ops = true ->
    _sftp_live (self st) <> None ->
    exists new,
      trace (run_ops ops st) = trace st ++ new
      /\ (List.length (List.filter session_made new)
          + sessions_left (self (run_ops ops st)) <= sessions_left (self st))%nat).
  { induction ops as [|o ops IH]; intros st Hops Hset.
    - exists []. cbn. rewrite app_nil_r. split; [reflexivity|lia].
    - cbn [forallb] in Hops. apply andb_true_iff in Hops as [Ho Hrest].
      apply negb_true_iff in Ho.
      destruct (do_op_sessions o st Ho Hset) as (n1 & E1 & L1 & S1).
      destruct (IH (fst (do_op o st)) Hrest S1) as (n2 & E2 & L2).
      exists (n1 ++ n2). rewrite run_ops_cons, E2, E1, app_assoc.
      split; [reflexivity|].
      rewrite List.filter_app, length_app. lia. }
  intros st Hops Hset. destruct (Hgen st Hops Hset) as (new & E & L).
  exists new. split; [exact E|].
  assert (sessions_left (self st) <= 1)%nat
    by (unfold sessions_left; destruct (sftp_live (self st)); lia).
  lia.
Qed.

Lemma one_session_between_closes_witness :
  let ops := [op_stat "readme.txt"; op_listdir "."; op_execute (VStr "ls");
              op_getcwd] in
  exists new,
    trace (run_ops ops (Sim.connected Sim.machine))
    = trace (Sim.connected Sim.machine) ++ new
    /\ (List.length (List.filter session_made new) <= 1)%nat.
Proof.
  intros ops.
  destruct (one_session_between_closes Sim.env Sim.collaborator ops
              (Sim.connected Sim.machine) eq_refl)
    as (new & E & _ & L); [discriminate|].
  exists new. split; assumption.
Defined.

(** ** Closing after a failed construction *)

Section FailedConstruction.

Context {W : Type} `{Collaborator W}.

(** When the first part of [__init__] raises, the transport flag is not
    up. *)
Lemma open_transport_raises (host : string) (username : Value) (port : Z)
    (log : Value) (st st1 : St W) (e : exn) :
  _tranport_live (self st) = None ->
  open_transport host username port log st = (st1, Raise e) ->
  _tranport_live (self st1) <> Some true.
Proof.
  intros Hnone.
  unfold open_transport, try_except, getitem, bind, call, set_sftp_live,
    set_sftp, set_tranport_live, set_transport, setattr, ret, raise.
  monad_cases; intros E; try discriminate E; injection E as <- <-;
    repeat match goal with
           | E : (_, _) = (_, _) |- _ => injection E as <- <-
           end; cbn; congruence.
Qed.

End FailedConstruction.

(** [__init__] and [close], lines 92-128 and 330-339.  When [__init__]
    raises with the transport up, that is, after the transport was made and
    while authenticating it, the object it leaves can be closed: the session
    part of [close] is passed over, the transport is closed, its flag goes
    down when that returns, and nothing else is called. *)
Theorem close_after_failed_authentication :
  forall (W : Type) (C : Collaborator W) (host : string)
         (username private_key password : Value) (port : Z)
         (private_key_pass log : Value) (w : W) (st : St W) (e : exn),
    __init__ host username private_key password port private_key_pass log
      (mkSt blank w []) = (st, Raise e) ->
    _tranport_live (self st) = Some true ->
    exists t,
      self st = mkConnection (Some false) (Some VNone) (Some true) (Some t)
      /\ forall id, t = VObj id ->
           let tclose := Transport_close (VObj id) in
           close st
           = (mkSt match snd (respond tclose (world st)) with
                   | Ok _ => mkConnection (Some false) (Some VNone) (Some false)
                               (Some t)
                   | Raise _ => self st
                   end
                (fst (respond tclose (world st)))
                (trace st ++ [(tclose, snd (respond tclose (world st)))]),
              match snd (respond tclose (world st)) with
              | Ok _ => Ok VNone
              | Raise e2 => Raise e2
              end).
Proof.
  intros W C host username private_key password port private_key_pass log w st e.
  unfold __init__. unfold bind at 1.
  destruct (open_transport host username port log (mkSt blank w []))
    as [st1 [u|e1]] eqn:Ho.
  - intros Ha Hup.
    destruct (open_transport_returns _ _ _ _ _ _ _ Ho) as (t & Hself & _).
    pose proof (frame_authenticate u private_key password private_key_pass st1)
      as Hf. rewrite Ha in Hf. cbn [fst] in Hf. rewrite Hself in Hf.
    exists t. split; [exact Hf|]. intros id ->. cbn zeta.
    unfold_ops. unfold bind, getattr, call, setattr, ret.
    repeat (rewrite ?Hf; cbn).
    destruct (respond (Transport_close (VObj id)) (world st)) as [w2 [v|e2]];
      repeat (cbn; rewrite ?Hf); reflexivity.
  - intros [= <- <-] Hup. exfalso.
    exact (open_transport_raises host username port log (mkSt blank w []) st1 e1
             eq_refl Ho Hup).
Qed.

(** A stand-in on which authentication fails. *)
Definition refuse_login (c : Call) (w : Sim.env) : Sim.env * result Value :=
  match c with
  | Transport_connect _ _ _ _ => (w, Raise AuthenticationException)
  | _ => Sim.answer c w
  end.

(** The theorem at work: a wrong password, then [close]. *)
Lemma close_after_failed_authentication_witness :
  let st := fst (__init__ (H := refuse_login) "localhost" (VStr "test") VNone
                   (VStr "wrong") 22 VNone (VBool false) (Sim.start Sim.machine)) in
  _tranport_live (self st) = Some true
  /\ close (H := refuse_login) st
     = (mkSt (mkConnection (Some false) (Some VNone) (Some false) (Some (VObj 0)))
          (Sim.with_closed (Sim.with_next Sim.machine 1) [0%nat])
          (trace st ++ [(Transport_close (VObj 0), Ok VNone)]),
        Ok VNone).
Proof.
  intros st. split; [reflexivity|].
  destruct (close_after_failed_authentication Sim.env refuse_login "localhost"
              (VStr "test") VNone (VStr "wrong") 22 VNone (VBool false)
              Sim.machine st AuthenticationException eq_refl eq_refl)
    as (t & Hself & Hclose).
  assert (Ht : t = VObj 0).
  { assert (E : _transport (self st) = Some t) by (rewrite Hself; reflexivity).
    vm_compute in E. congruence. }
  subst t. exact (Hclose 0%nat eq_refl).
Defined.

(** [close], lines 330-339.  [close] is idempotent: once it has returned,
    both flags are down, and closing again returns without a single call
    and without changing anything. *)
Theorem close_twice_is_close_once :
  forall (W : Type) (C : Collaborator W) (st st1 : St W) (v : Value),
    close st = (st1, Ok v) ->
    _sftp_live (self st1) = Some false
    /\ _tranport_live (self st1) = Some false
    /\ close st1 = (st1, Ok VNone).
Proof. intros W C st st1 v. apply close_idempotent. Qed.

Lemma close_twice_is_close_once_witness :
  let st := run_ops [op_sftp_connect] (Sim.connected Sim.machine) in
  close st = (fst (close st), Ok VNone)
  /\ close (fst (close st)) = (fst (close st), Ok VNone).
Proof.
  intros st.
  assert (E : close st = (fst (close st), Ok VNone)) by reflexivity.
  split; [exact E|].
  exact (proj2 (proj2 (close_twice_is_close_once Sim.env Sim.collaborator st
                         (fst (close st)) VNone E))).
Defined.

(** [_sftp_connect] after [close], lines 130-134 and 330-339.  Nothing in
    the object remembers that it was closed: after a [close] that returned,
    the next [_sftp_connect], and so the next remote operation, asks
    [SFTPClient.from_transport] for a session on the transport that was
    closed.  Whether a session comes of it is up to the collaborator; if one
    does, the session flag is up while the transport flag is down. *)
Theorem session_asked_for_after_close :
  forall (W : Type) (C : Collaborator W) (st st1 : St W) (v t : Value),
    close st = (st1, Ok v) ->
    _transport (self st) = Some t ->
    let ask := SFTPClient_from_transport t in
    _sftp_connect st1
    = match snd (respond ask (world st1)) with
      | Ok s =>
          (mkSt (mkConnection (Some true) (Some s) (Some false) (Some t))
             (fst (respond ask (world st1)))
             (trace st1 ++ [(ask, Ok s)]),
           Ok tt)
      | Raise e =>
          (mkSt (self st1) (fst (respond ask (world st1)))
             (trace st1 ++ [(ask, Raise e)]),
           Raise e)
      end.
Proof.
  intros W C st st1 v t Hclose Ht ask. subst ask.
  destruct (close_idempotent st st1 v Hclose) as (Hl & Hd & _).
  pose proof (proj1 (close_transport st)) as Hsame.
  rewrite Hclose in Hsame. cbn [fst] in Hsame. rewrite Ht in Hsame.
  unfold _sftp_connect, set_sftp, set_sftp_live, bind, getattr, call, setattr, ret.
  rewrite Hl. cbn. rewrite Hsame. cbn.
  destruct (respond (SFTPClient_from_transport t) (world st1)) as [w' [s|e]];
    cbn; rewrite ?Hd, ?Hsame; reflexivity.
Qed.

(** The theorem at work, on a stand-in that does not refuse a closed
    transport. *)
Lemma session_asked_for_after_close_witness :
  let lax := Sim.mkEnv (Some "test") [] [] O [] false ∅ in
  let st := Sim.connected lax in
  let st1 := fst (close st) in
  self (fst (_sftp_connect st1))
  = mkConnection (Some true) (Some (VObj 1)) (Some false) (Some (VObj 0)).
Proof.
  intros lax st st1.
  rewrite (session_asked_for_after_close Sim.env Sim.collaborator st st1 VNone
             (VObj 0) eq_refl eq_refl).
  reflexivity.
Defined.

(** ** Default destinations *)




